(** * pyvcloud.vcd.org: chunked transfer of catalog items

    A shallow embedding of the transfer code of [pyvcloud/vcd/org.py]:
    [Org.upload_file], [Org.upload_ovf], [Org.download_catalog_item] and the
    catalog lookups they start with.  Python statements become computations
    in a small monad over an explicit [world] (local file system, working
    directory, clock, and the history of calls made on the client); Python
    exceptions are the [Raise] outcome, and the [while] loops take fuel. *)

From Stdlib Require Import ZArith String Ascii List Lia DecimalString Sorted.
From stdpp Require Import gmap strings list fin_maps.

#[local] Open Scope string_scope.

(** ** Python values, exceptions *)

Module Py.

(** The dynamically typed values the transfer code compares. *)
Inductive pyval :=
| PyNone
| PyInt (z : Z)
| PyStr (s : string).

(** [a == b]: values of different types are never equal. *)
Definition py_eq (a b : pyval) : bool :=
  match a, b with
  | PyNone, PyNone => true
  | PyInt x, PyInt y => (x =? y)%Z
  | PyStr s, PyStr t => String.eqb s t
  | _, _ => false
  end.

(** [a != b] *)
Definition py_ne (a b : pyval) : bool := negb (py_eq a b).

(** ['%s' % n] for an integer [n]. *)
Definition str_of_int (z : Z) : string := NilZero.string_of_int (Z.to_int z).

(** The exceptions that occur; all of them derive from [Exception]. *)
Inductive exn :=
| Exception (msg : string)
| AttributeError (msg : string)
| TypeError (msg : string)
| FileNotFoundError (path : string)
| FileExistsError (path : string)
| OtherError (cls msg : string).

Inductive outcome (A : Type) :=
| Return (a : A)
| Raise (e : exn).
Arguments Return {A} a.
Arguments Raise {A} e.

End Py.
Export Py.

(** ** XML documents as lxml.objectify presents them *)

Module Objectify.

#[local] Unset Elimination Schemes.
Inductive xml :=
  Elem (tag : string) (attrs : list (string * string)) (text : string) (kids : list xml).

Definition tag_of (e : xml) : string := let 'Elem t _ _ _ := e in t.
Definition attrs_of (e : xml) : list (string * string) := let 'Elem _ a _ _ := e in a.
(** [e.getchildren()] *)
Definition getchildren (e : xml) : list xml := let 'Elem _ _ _ k := e in k.

Definition children_named (t : string) (e : xml) : list xml :=
  filter (λ k, tag_of k = t) (getchildren e).

(** [e.t]: the first child with tag [t]; objectify raises [AttributeError]
    when there is none. *)
Definition child (t : string) (e : xml) : outcome xml :=
  match children_named t e with
  | k :: _ => Return k
  | [] => Raise (AttributeError ("no such child: " +:+ t))
  end.

(** [e.t] used as a sequence ([len(e.t)], [for f in e.t]): the children
    with tag [t], in document order; the lookup itself fails as [child]
    does when there is none. *)
Definition siblings (t : string) (e : xml) : outcome (list xml) :=
  match children_named t e with
  | [] => Raise (AttributeError ("no such child: " +:+ t))
  | ks => Return ks
  end.

Fixpoint assoc (k : string) (l : list (string * string)) : option string :=
  match l with
  | [] => None
  | (k', v) :: l' => if String.eqb k k' then Some v else assoc k l'
  end.

(** [e.get(k)]: the attribute as a string, [None] when it is absent. *)
Definition get (k : string) (e : xml) : option string := assoc k (attrs_of e).

Definition to_pyval (o : option string) : pyval :=
  match o with
  | Some s => PyStr s
  | None => PyNone
  end.

End Objectify.
Export Objectify.

(** ** The world: local files, directories, clock, client history *)

(** A regular file: the size [os.stat] reports and the bytes a reader gets. *)
Record file := { st_size : Z; content : list Byte.byte }.

Definition mk_file (data : list Byte.byte) : file :=
  {| st_size := Z.of_nat (length data); content := data |}.

Inductive RelationType := DOWN | DOWNLOAD_DEFAULT.
Inductive EntityType := CATALOG | MEDIA | VAPP_TEMPLATE | TEXT_XML | UPLOAD_VAPP_TEMPLATE_PARAMS.

Inductive event :=
| EvGet (href : option string)
| EvGetLinked (resource : xml) (rel : RelationType) (media_type : string)
| EvPost (href : string) (body : option xml) (media_type : option string)
| EvPut (href : option string) (body : xml) (media_type : string)
| EvUploadFragment (href : option string) (data : list Byte.byte) (range : string)
| EvDownload (uri : option string) (target : string) (size : pyval)
| EvWait (task : xml) (timeout poll_frequency : Z)
| EvCallback (transferred total : Z)
| EvSleep (seconds : Z)
| EvPrint (text : string).

Record world := {
  fs : gmap string file;             (* regular files, by absolute path *)
  dirs : gmap string (list string);  (* directories and their listing *)
  cwd : string;                      (* os.getcwd() *)
  clock : Z;                         (* seconds slept so far *)
  trace : list event                 (* calls and callbacks, oldest first *)
}.

Definition set_fs (f : gmap string file → gmap string file) (w : world) : world :=
  {| fs := f (fs w); dirs := dirs w; cwd := cwd w; clock := clock w; trace := trace w |}.
Definition set_dirs (f : gmap string (list string) → gmap string (list string)) (w : world) : world :=
  {| fs := fs w; dirs := f (dirs w); cwd := cwd w; clock := clock w; trace := trace w |}.
Definition set_cwd (d : string) (w : world) : world :=
  {| fs := fs w; dirs := dirs w; cwd := d; clock := clock w; trace := trace w |}.
Definition tick (s : Z) (w : world) : world :=
  {| fs := fs w; dirs := dirs w; cwd := cwd w; clock := (clock w + s)%Z; trace := trace w |}.
Definition log (ev : event) (w : world) : world :=
  {| fs := fs w; dirs := dirs w; cwd := cwd w; clock := clock w; trace := (trace w ++ [ev])%list |}.

(** ** Computations *)

(** A statement sequence run from a world either does not finish within the
    fuel of its loops ([None]) or ends, returning or raising, in a new world. *)
Definition M (A : Type) : Type := world → option (outcome A * world).

Definition ret {A} (a : A) : M A := λ w, Some (Return a, w).
Definition raise {A} (e : exn) : M A := λ w, Some (Raise e, w).
Definition out_of_fuel {A} : M A := λ _, None.
Definition lift {A} (o : outcome A) : M A := λ w, Some (o, w).

Definition bind {A B} (m : M A) (k : A → M B) : M B := λ w,
  match m w with
  | None => None
  | Some (Raise e, w') => Some (Raise e, w')
  | Some (Return a, w') => k a w'
  end.

(** Runs [m] and hands its outcome over as a value: the entry of a [try]. *)
Definition attempt {A} (m : M A) : M (outcome A) := λ w,
  match m w with
  | None => None
  | Some (r, w') => Some (Return r, w')
  end.

Notation "x <- m ;; k" := (bind m (λ x, k))
  (at level 100, m at next level, right associativity, only parsing).
Notation "m ;;; k" := (bind m (λ _, k))
  (at level 100, right associativity, only parsing).

(** ** os, os.path, tempfile, shutil *)

Module OsPath.

Definition starts_with_slash (p : string) : bool :=
  match p with
  | String c _ => Ascii.eqb c "/"
  | EmptyString => false
  end.

Fixpoint ends_with_slash (p : string) : bool :=
  match p with
  | EmptyString => false
  | String c EmptyString => Ascii.eqb c "/"
  | String _ r => ends_with_slash r
  end.

(** [os.path.join(a, b)] (posixpath). *)
Definition join (a b : string) : string :=
  if starts_with_slash b then b
  else if (String.eqb a "" || ends_with_slash a)%bool then a +:+ b
  else a +:+ "/" +:+ b.

(** Index of the last occurrence of [c] at or after position [i], the
    string being read from position [i]. *)
Fixpoint rfind_from (c : ascii) (p : string) (i : nat) : option nat :=
  match p with
  | EmptyString => None
  | String d r =>
      match rfind_from c r (S i) with
      | Some j => Some j
      | None => if Ascii.eqb d c then Some i else None
      end
  end.

(** [p.rfind(c)], [None] for -1. *)
Definition rfind (c : ascii) (p : string) : option nat := rfind_from c p 0.

(** Does some character of [p] at a position in [[lo, hi)] differ from
    a dot?  (The scan over the leading dots in [genericpath._splitext].) *)
Fixpoint non_dot_between (p : string) (lo hi : nat) : bool :=
  match hi with
  | O => false
  | S hi' =>
      match p with
      | EmptyString => false
      | String d r =>
          match lo with
          | O => (negb (Ascii.eqb d ".") || non_dot_between r 0 hi')%bool
          | S lo' => non_dot_between r lo' hi'
          end
      end
  end.

(** [os.path.splitext(p)] (posixpath): the extension starts at the last
    dot, provided that dot comes after the last slash and is preceded, in
    the file name, by a character other than a dot. *)
Definition splitext (p : string) : string * string :=
  let filename_index := match rfind "/" p with Some i => S i | None => O end in
  match rfind "." p with
  | Some dot_index =>
      if (filename_index <=? dot_index)%nat && non_dot_between p filename_index dot_index
      then (String.substring 0 dot_index p,
            String.substring dot_index (String.length p - dot_index) p)
      else (p, "")
  | None => (p, "")
  end.

(** [os.path.basename(p)]: what follows the last slash. *)
Definition basename (p : string) : string :=
  match rfind "/" p with
  | Some i => String.substring (S i) (String.length p - S i) p
  | None => p
  end.

End OsPath.

(** Paths are resolved against the working directory. *)
Definition resolve (w : world) (p : string) : string := OsPath.join (cwd w) p.

Definition os_getcwd : M string := λ w, Some (Return (cwd w), w).

(** [os.chdir(d)]; the two directories this code changes to exist when it
    does (the workspace it has just made, the directory it started in). *)
Definition os_chdir (d : string) : M unit := λ w, Some (Return tt, set_cwd (resolve w d) w).

Definition os_stat (path : string) : M file := λ w,
  match fs w !! resolve w path with
  | Some f => Some (Return f, w)
  | None => Some (Raise (FileNotFoundError path), w)
  end.

(** [os.listdir(d)] *)
Definition os_listdir (d : string) : M (list string) := λ w,
  match dirs w !! resolve w d with
  | Some names => Some (Return names, w)
  | None => Some (Raise (FileNotFoundError d), w)
  end.

(** [open(path, 'rb')]: the bytes still to be read. *)
Definition open_rb (path : string) : M (list Byte.byte) := λ w,
  match fs w !! resolve w path with
  | Some f => Some (Return (content f), w)
  | None => Some (Raise (FileNotFoundError path), w)
  end.

(** [f.read(n)] on a buffered binary reader: up to [n] bytes, fewer only at
    end of file; everything that is left when [n] is negative.  Returns the
    bytes read and the reader after them. *)
Definition f_read (n : Z) (f : list Byte.byte) : list Byte.byte * list Byte.byte :=
  if (n <? 0)%Z then (f, []) else (take (Z.to_nat n) f, drop (Z.to_nat n) f).

(** [open(path, 'wb')], [write(data)], close. *)
Definition write_file (path : string) (data : list Byte.byte) : M unit := λ w,
  Some (Return tt, set_fs (insert (resolve w path) (mk_file data)) w).

Definition under (d : string) (p : string) : bool := String.prefix (d +:+ "/") p.

(** [shutil.rmtree(d)] *)
Definition shutil_rmtree (d : string) : M unit := λ w,
  let p := resolve w d in
  match dirs w !! p with
  | Some _ =>
      Some (Return tt,
            set_fs (filter (λ kv, under p kv.1 = false)) (set_dirs (delete p) w))
  | None => Some (Raise (FileNotFoundError d), w)
  end.

Definition len (b : list Byte.byte) : Z := Z.of_nat (length b).

(** [s.replace(old, new)] for a non-empty [old]; [skip] counts the
    characters of a match still to be dropped. *)
Fixpoint replace_from (old new s : string) (skip : nat) : string :=
  match s with
  | EmptyString => EmptyString
  | String c r =>
      match skip with
      | S k => replace_from old new r k
      | O =>
          if String.prefix old s
          then new +:+ replace_from old new r (String.length old - 1)
          else String c (replace_from old new r 0)
      end
  end.
Definition str_replace (old new s : string) : string := replace_from old new s 0.

(** [a + s] where [a] came from an attribute lookup. *)
Definition str_add (a : option string) (s : string) : M string :=
  match a with
  | Some a' => ret (a' +:+ s)
  | None => raise (TypeError "unsupported operand type(s) for +: 'NoneType' and 'str'")
  end.

(** [os.path.join(d, a)] where [a] came from an attribute lookup. *)
Definition os_path_join (d : string) (a : option string) : M string :=
  match a with
  | Some a' => ret (OsPath.join d a')
  | None => raise (TypeError "expected str, bytes or os.PathLike object, not NoneType")
  end.

(** [s + a] where [a] came from an attribute lookup. *)
Definition add_str (s : string) (a : option string) : M string :=
  match a with
  | Some a' => ret (s +:+ a')
  | None => raise (TypeError "can only concatenate str (not 'NoneType') to str")
  end.

(** ['... %s' % a] *)
Definition percent_s (a : option string) : string :=
  match a with
  | Some a' => a'
  | None => "None"
  end.

Definition option_string_eqb (a b : option string) : bool :=
  match a, b with
  | Some s, Some t => String.eqb s t
  | None, None => true
  | _, _ => false
  end.

(** ** The collaborators: the client (pyvcloud.vcd.client) and the
    libraries the transfer code calls (tempfile, tarfile, lxml).

    None of them is in this file of the repository.  A call on the client
    answers as a function of the history of calls made so far, so that a
    server may change its answer from one poll to the next. *)

Record link := { link_name : string; link_href : string }.

(** What [download_from_uri] leaves in the target file, and the value it
    hands back. *)
Record download := { dl_data : list Byte.byte; dl_return : pyval }.

Record Client := {
  value : EntityType → string;
  get_resource : list event → option string → outcome xml;
  post_resource : list event → string → option xml → option string → outcome xml;
  put_resource : list event → option string → xml → string → outcome xml;
  upload_fragment : list event → option string → list Byte.byte → string → outcome unit;
  download_from_uri : list event → option string → string → pyval → outcome download;
  get_links : xml → RelationType → string → list link;
  find_link : xml → RelationType → string → outcome link;
  get_linked_resource : list event → xml → RelationType → string → outcome xml;
  wait_for_success : list event → xml → Z → Z → outcome xml
}.

Record Platform := {
  (** the name [tempfile.mkdtemp] draws *)
  tmp_name : string;
  (** [tarfile.open(f); extractall(d)]: the entries left at the top of [d],
      in [os.listdir] order, with their bytes *)
  tar_extract : list Byte.byte → outcome (list (string * list Byte.byte));
  (** the bytes of an archive written with [tarfile.open(f, 'w')], given
      the members added and whether it was closed normally *)
  tar_image : list (string * list Byte.byte) → bool → list Byte.byte;
  (** [etree.tostring(doc, pretty_print=True, xml_declaration=True,
      encoding='utf-8')] *)
  etree_tostring : xml → list Byte.byte;
  (** [objectify.parse(f)] on the bytes of [f] *)
  objectify_parse : list Byte.byte → outcome xml
}.

Definition DEFAULT_CHUNK_SIZE : Z := 1024 * 1024.

Definition ns : string := "{http://schemas.dmtf.org/ovf/envelope/1}".

(** The dict built for each [File] of a descriptor. *)
Record source_file := { sf_href : option string; sf_name : option string; sf_size : option string }.

Definition source_file_of (f : xml) : source_file :=
  {| sf_href := get (ns +:+ "href") f;
     sf_name := get (ns +:+ "id") f;
     sf_size := get (ns +:+ "size") f |}.

Record Org := { client : Client; endpoint : string; endpoint_admin : string; is_admin : bool }.

Section OrgMethods.

Variable sys : Platform.
Variable self : Org.

(** *** Calls on the client, each recorded in the history *)

Definition client_get_resource (href : option string) : M xml := λ w,
  Some (get_resource (client self) (trace w) href, log (EvGet href) w).

Definition client_post_resource (href : string) (body : option xml) (mt : option string) : M xml := λ w,
  Some (post_resource (client self) (trace w) href body mt, log (EvPost href body mt) w).

Definition client_put_resource (href : option string) (body : xml) (mt : string) : M xml := λ w,
  Some (put_resource (client self) (trace w) href body mt, log (EvPut href body mt) w).

Definition client_upload_fragment (href : option string) (data : list Byte.byte) (range : string) : M unit := λ w,
  Some (upload_fragment (client self) (trace w) href data range,
        log (EvUploadFragment href data range) w).

(** [download_from_uri(uri, target, chunk_size, size, callback)]: on
    return the target file holds what was received. *)
Definition client_download_from_uri (uri : option string) (target : string) (size : pyval) : M pyval := λ w,
  match download_from_uri (client self) (trace w) uri target size with
  | Return d =>
      Some (Return (dl_return d),
            set_fs (insert (resolve w target) (mk_file (dl_data d)))
                   (log (EvDownload uri target size) w))
  | Raise e => Some (Raise e, log (EvDownload uri target size) w)
  end.

Definition client_get_linked_resource (r : xml) (rel : RelationType) (mt : string) : M xml := λ w,
  Some (get_linked_resource (client self) (trace w) r rel mt, log (EvGetLinked r rel mt) w).

Definition task_monitor_wait_for_success (task : xml) (timeout poll : Z) : M xml := λ w,
  Some (wait_for_success (client self) (trace w) task timeout poll, log (EvWait task timeout poll) w).

Definition call_back (transferred total : Z) : M unit := λ w,
  Some (Return tt, log (EvCallback transferred total) w).

Definition time_sleep (s : Z) : M unit := λ w,
  Some (Return tt, log (EvSleep s) (tick s w)).

Definition print_traceback (e : exn) : M unit := λ w,
  Some (Return tt, log (EvPrint "Traceback (most recent call last):") w).

(** [tempfile.mkdtemp(dir=d)] *)
Definition tempfile_mkdtemp (d : string) : M string := λ w,
  let t := OsPath.join d (tmp_name sys) in
  match dirs w !! resolve w t with
  | Some _ => Some (Raise (FileExistsError t), w)
  | None => Some (Return t, set_dirs (insert (resolve w t) []) w)
  end.

(** *** Catalog lookups (org.py, lines 100-108 and 129-134) *)

Definition get_catalog (name : string) : M xml :=
  org <- client_get_resource (Some (endpoint self)) ;;
  let links := get_links (client self) org DOWN (value (client self) CATALOG) in
  match List.find (λ l, String.eqb name (link_name l)) links with
  | Some l => client_get_resource (Some (link_href l))
  | None => raise (Exception "Catalog not found.")
  end.

Definition get_catalog_item (name item_name : string) : M xml :=
  catalog <- get_catalog name ;;
  items <- lift (child "CatalogItems" catalog) ;;
  match List.find (λ i, option_string_eqb (get "name" i) (Some item_name)) (getchildren items) with
  | Some i => client_get_resource (get "href" i)
  | None => raise (Exception "Catalog item not found.")
  end.

(** *** upload_file (org.py, lines 246-265) *)

Definition range_str (transferred n size : Z) : string :=
  "bytes " +:+ str_of_int transferred +:+ "-" +:+ str_of_int (n - 1) +:+ "/" +:+ str_of_int size.

(** The [while transferred < stat_info.st_size] loop; [f] is the reader. *)
Fixpoint upload_loop (fuel : nat) (href : option string) (chunk_size : Z) (callback : bool)
    (size : Z) (f : list Byte.byte) (transferred : Z) : M Z :=
  match fuel with
  | O => out_of_fuel
  | S fuel' =>
      if (transferred <? size)%Z then
        let '(my_bytes, f') := f_read chunk_size f in
        if (len my_bytes <=? chunk_size)%Z then
          client_upload_fragment href my_bytes (range_str transferred (len my_bytes) size) ;;;
          let transferred' := (transferred + len my_bytes)%Z in
          (if callback then call_back transferred' size else ret tt) ;;;
          upload_loop fuel' href chunk_size callback size f' transferred'
        else upload_loop fuel' href chunk_size callback size f' transferred
      else ret transferred
  end.

Definition upload_file (fuel : nat) (file_name : string) (href : option string)
    (chunk_size : Z) (callback : bool) : M Z :=
  stat_info <- os_stat file_name ;;
  f <- open_rb file_name ;;
  upload_loop fuel href chunk_size callback (st_size stat_info) f 0%Z.

(** *** download_catalog_item (org.py, lines 168-244) *)

(** The loop [for f in ovf_descriptor.References.File]; [files] is the
    list built so far. *)
Fixpoint download_files (tempdir transfer_uri : string) (fl : list xml)
    (files : list source_file) : M (list source_file) :=
  match fl with
  | [] => ret files
  | f :: rest =>
      let source_file := source_file_of f in
      target_file <- os_path_join tempdir (sf_href source_file) ;;
      uri <- add_str transfer_uri (sf_href source_file) ;;
      num_bytes <- client_download_from_uri (Some uri) target_file
                     (to_pyval (sf_size source_file)) ;;
      if py_ne num_bytes (to_pyval (sf_size source_file)) then
        raise (Exception ("download incomplete for file " +:+ percent_s (sf_href source_file)))
      else download_files tempdir transfer_uri rest (files ++ [source_file])%list
  end.

(** [tarfile.open(file_name, 'w')]: the archive file is created at once;
    the open archive is known by its absolute path. *)
Definition tarfile_open_w (file_name : string) : M string := λ w,
  let p := resolve w file_name in
  Some (Return p, set_fs (insert p (mk_file (tar_image sys [] false))) w).

(** [tar.add(name)]: the member is read and written through. *)
Definition tar_add (tar : string) (members : list (string * list Byte.byte))
    (name : option string) : M (list (string * list Byte.byte)) :=
  match name with
  | None => raise (TypeError "expected str, bytes or os.PathLike object, not NoneType")
  | Some n =>
      data <- open_rb n ;;
      let members' := (members ++ [(n, data)])%list in
      (λ w, Some (Return members',
                  set_fs (insert tar (mk_file (tar_image sys members' false))) w))
  end.

Fixpoint tar_add_all (tar : string) (members : list (string * list Byte.byte))
    (files : list source_file) : M (list (string * list Byte.byte)) :=
  match files with
  | [] => ret members
  | f :: rest =>
      members' <- tar_add tar members (sf_href f) ;;
      tar_add_all tar members' rest
  end.

(** Leaving the [with tarfile.open(...)] block normally. *)
Definition tar_close (tar : string) (members : list (string * list Byte.byte)) : M unit := λ w,
  Some (Return tt, set_fs (insert tar (mk_file (tar_image sys members true))) w).

(** The body of the [try] once [tempdir] is bound. *)
Definition download_vapp_try (ovf_descriptor : xml) (transfer_uri tempdir file_name : string) : M unit :=
  let ovf_file := OsPath.join tempdir "descriptor.ovf" in
  write_file ovf_file (etree_tostring sys ovf_descriptor) ;;;
  references <- lift (child "References" ovf_descriptor) ;;
  fl <- lift (siblings "File" references) ;;
  files <- download_files tempdir transfer_uri fl [] ;;
  tar <- tarfile_open_w file_name ;;
  os_chdir tempdir ;;;
  members <- tar_add tar [] (Some "descriptor.ovf") ;;
  members' <- tar_add_all tar members files ;;
  tar_close tar members'.

Definition download_vapp (item : xml) (file_name : string) : M pyval :=
  let text_xml := value (client self) TEXT_XML in
  ovf_descriptor <- client_get_linked_resource item DOWNLOAD_DEFAULT text_xml ;;
  lnk <- lift (find_link (client self) item DOWNLOAD_DEFAULT text_xml) ;;
  let transfer_uri := str_replace "/descriptor.ovf" "/" (link_href lnk) in
  cwd <- os_getcwd ;;
  t <- attempt (tempfile_mkdtemp ".") ;;
  match t with
  | Raise e => raise e               (* finally: tempdir is None *)
  | Return tempdir =>
      r <- attempt (download_vapp_try ovf_descriptor transfer_uri tempdir file_name) ;;
      (* finally: tempdir is not None *)
      os_chdir cwd ;;;
      stat_info <- os_stat file_name ;;
      let bytes_written := PyInt (st_size stat_info) in
      (* # shutil.rmtree(tempdir) *)
      match r with
      | Raise e => raise e
      | Return _ => ret bytes_written
      end
  end.

Definition download_media (item : xml) (file_name : string) : M pyval :=
  files <- lift (child "Files" item) ;;
  f <- lift (child "File" files) ;;
  let size := get "size" f in
  lnk <- lift (child "Link" f) ;;
  let download_href := get "href" lnk in
  client_download_from_uri download_href file_name (to_pyval size).

Definition download_catalog_item (catalog_name item_name file_name : string) : M pyval :=
  item <- get_catalog_item catalog_name item_name ;;
  entity <- lift (child "Entity" item) ;;
  let item_type := get "type" entity in
  enable_href <- str_add (get "href" entity) "/action/enableDownload" ;;
  task <- client_post_resource enable_href None None ;;
  task_monitor_wait_for_success task 60 1 ;;;
  item <- client_get_resource (get "href" entity) ;;
  let bytes_written := PyInt 0 in
  if option_string_eqb item_type (Some (value (client self) MEDIA)) then
    download_media item file_name
  else if option_string_eqb item_type (Some (value (client self) VAPP_TEMPLATE)) then
    download_vapp item file_name
  else ret bytes_written.

(** *** upload_ovf (org.py, lines 267-336) *)

(** [ova = tarfile.open(file_name); ova.extractall(path=tempdir); ova.close()] *)
Definition tarfile_extractall (file_name tempdir : string) : M unit :=
  data <- open_rb file_name ;;
  entries <- lift (tar_extract sys data) ;;
  (λ w, Some (Return tt,
              set_dirs (insert (resolve w tempdir) (map fst entries))
                (set_fs (λ m, foldr (λ e m', <[resolve w (OsPath.join tempdir e.1) := mk_file e.2]> m')
                                    m entries) w))).

(** The search [for f in files: ... if ex == '.ovf': ... break]. *)
Definition find_ovf (tempdir : string) (files : list string) : option string :=
  match List.find (λ f, String.eqb (snd (OsPath.splitext f)) ".ovf") files with
  | Some f => Some (OsPath.join tempdir f)
  | None => None
  end.

(** [len(entity.Files.File)] *)
Definition count_files (entity : xml) : outcome Z :=
  match child "Files" entity with
  | Raise e => Raise e
  | Return files =>
      match siblings "File" files with
      | Raise e => Raise e
      | Return fl => Return (Z.of_nat (length fl))
      end
  end.

(** The loop [while True: time.sleep(5); ...; if len(...) > 1: break];
    it leaves the last [entity] fetched. *)
Fixpoint poll_slots (fuel : nat) (catalog_item : xml) : M xml :=
  match fuel with
  | O => out_of_fuel
  | S fuel' =>
      time_sleep 5 ;;;
      e <- lift (child "Entity" catalog_item) ;;
      entity <- client_get_resource (get "href" e) ;;
      n <- lift (count_files entity) ;;
      if (1 <? n)%Z then ret entity else poll_slots fuel' catalog_item
  end.

(** The inner loop [for target_file in entity.Files.File]. *)
Fixpoint upload_to_slots (fuel : nat) (tempdir : string) (chunk_size : Z) (callback : bool)
    (source_file : source_file) (targets : list xml) (total_bytes : Z) : M Z :=
  match targets with
  | [] => ret total_bytes
  | target_file :: rest =>
      if option_string_eqb (sf_href source_file) (get "name" target_file) then
        file_path <- os_path_join tempdir (sf_href source_file) ;;
        lnk <- lift (child "Link" target_file) ;;
        n <- upload_file fuel file_path (get "href" lnk) chunk_size callback ;;
        upload_to_slots fuel tempdir chunk_size callback source_file rest (total_bytes + n)%Z
      else upload_to_slots fuel tempdir chunk_size callback source_file rest total_bytes
  end.

(** The outer loop [for source_file in files]. *)
Fixpoint upload_members (fuel : nat) (tempdir : string) (chunk_size : Z) (callback : bool)
    (entity : xml) (files : list source_file) (total_bytes : Z) : M Z :=
  match files with
  | [] => ret total_bytes
  | source_file :: rest =>
      fl <- lift (child "Files" entity) ;;
      targets <- lift (siblings "File" fl) ;;
      total_bytes' <- upload_to_slots fuel tempdir chunk_size callback source_file targets total_bytes ;;
      upload_members fuel tempdir chunk_size callback entity rest total_bytes'
  end.

(** [Maker.UploadVAppTemplateParams(name=item_name)] with its
    [Description] appended. *)
Definition upload_params (item_name description : string) : xml :=
  Elem "UploadVAppTemplateParams" [("name", item_name)] ""
       [Elem "Description" [] description []].

(** The block under [if ovf_file is not None]. *)
Definition upload_descriptor_and_members (fuel : nat) (catalog : xml)
    (tempdir ovf_file item_name description : string) (chunk_size : Z) (callback : bool)
    (total_bytes : Z) : M Z :=
  stat_info <- os_stat ovf_file ;;
  let total_bytes := (total_bytes + st_size stat_info)%Z in
  ovf_bytes <- open_rb ovf_file ;;
  ovf <- lift (objectify_parse sys ovf_bytes) ;;
  references <- lift (child "References" ovf) ;;
  fl <- lift (siblings "File" references) ;;
  let files := map source_file_of fl in
  let params := upload_params item_name description in
  href <- str_add (get "href" catalog) "/action/upload" ;;
  catalog_item <- client_post_resource href (Some params)
                    (Some (value (client self) UPLOAD_VAPP_TEMPLATE_PARAMS)) ;;
  e <- lift (child "Entity" catalog_item) ;;
  entity <- client_get_resource (get "href" e) ;;
  efiles <- lift (child "Files" entity) ;;
  efile <- lift (child "File" efiles) ;;
  elink <- lift (child "Link" efile) ;;
  let file_href := get "href" elink in
  client_put_resource file_href ovf "text/xml" ;;;
  entity <- poll_slots fuel catalog_item ;;
  upload_members fuel tempdir chunk_size callback entity files total_bytes.

(** The body of the [try]. *)
Definition upload_ovf_try (fuel : nat) (catalog : xml)
    (tempdir file_name item_name description : string) (chunk_size : Z) (callback : bool) : M Z :=
  let total_bytes := 0%Z in
  tarfile_extractall file_name tempdir ;;;
  files <- os_listdir tempdir ;;
  total_bytes <-
    match find_ovf tempdir files with
    | Some ovf_file =>
        upload_descriptor_and_members fuel catalog tempdir ovf_file item_name description
          chunk_size callback total_bytes
    | None => ret total_bytes
    end ;;
  shutil_rmtree tempdir ;;;
  ret total_bytes.

Definition upload_ovf (fuel : nat) (catalog_name file_name : string) (item_name : option string)
    (description : string) (chunk_size : Z) (callback : bool) : M Z :=
  catalog <- get_catalog catalog_name ;;
  let item_name :=
    match item_name with
    | None => OsPath.basename file_name
    | Some n => n
    end in
  tempdir <- tempfile_mkdtemp "." ;;
  r <- attempt (upload_ovf_try fuel catalog tempdir file_name item_name description
                  chunk_size callback) ;;
  match r with
  | Return total_bytes => ret total_bytes
  | Raise e =>
      print_traceback e ;;;
      shutil_rmtree tempdir ;;;
      raise e
  end.

End OrgMethods.

(** The range header as the specification words it:
    [bytes <offset>-<offset+len-1>/<totalSize>], end inclusive. *)
Definition spec_range_str (offset n total : Z) : string :=
  "bytes " +:+ str_of_int offset +:+ "-" +:+ str_of_int (offset + n - 1) +:+ "/" +:+ str_of_int total.

(** ** Reading the history *)

(** The world after the events [evs] have been recorded. *)
Definition logs (evs : list event) (w : world) : world :=
  {| fs := fs w; dirs := dirs w; cwd := cwd w; clock := clock w; trace := (trace w ++ evs)%list |}.

(** The [transferred] argument of each callback, in order. *)
Definition callbacks (evs : list event) : list Z :=
  flat_map (λ ev, match ev with EvCallback t _ => [t] | _ => [] end) evs.

(** The bytes and the range header of each fragment submitted, in order. *)
Definition fragments (evs : list event) : list (list Byte.byte * string) :=
  flat_map (λ ev, match ev with EvUploadFragment _ d r => [(d, r)] | _ => [] end) evs.

(** Every fragment is followed at once by a callback. *)
Fixpoint after_each_chunk (evs : list event) : bool :=
  match evs with
  | [] => true
  | EvUploadFragment _ _ _ :: EvCallback _ _ :: rest => after_each_chunk rest
  | _ => false
  end.

(** A client that accepts every fragment. *)
Definition accepts_fragments (c : Client) : Prop :=
  ∀ tr href data range, upload_fragment c tr href data range = Return tt.

(** ** The slot poll, seen from the server *)

(** The history after [k] rounds of the poll on [href] that did not end it. *)
Definition poll_history (href : option string) (k : nat) : list event :=
  concat (replicate k [EvSleep 5; EvGet href]).

(** What the server answers to the poll of round [k] (rounds count from 0)
    when the loop is entered in world [w]. *)
Definition poll_response (self : Org) (w : world) (href : option string) (k : nat) : outcome xml :=
  get_resource (client self) (trace w ++ poll_history href k ++ [EvSleep 5])%list href.

(** The world after a round on [href] that did not end the loop. *)
Definition next_round (href : option string) (w : world) : world :=
  log (EvGet href) (log (EvSleep 5) (tick 5 w)).

(** Does this answer end the loop?  It does when the request or the lookup
    of [Files.File] raises, and when more than one [File] is reported. *)
Definition ends_poll (r : outcome xml) : bool :=
  match r with
  | Raise _ => true
  | Return entity =>
      match count_files entity with
      | Raise _ => true
      | Return n => (1 <? n)%Z
      end
  end.

(** ** Concrete servers, archives and worlds *)

Module Samples.

Definition media_types (t : EntityType) : string :=
  match t with
  | CATALOG => "application/vnd.vmware.vcloud.catalog+xml"
  | MEDIA => "application/vnd.vmware.vcloud.media+xml"
  | VAPP_TEMPLATE => "application/vnd.vmware.vcloud.vAppTemplate+xml"
  | TEXT_XML => "text/xml"
  | UPLOAD_VAPP_TEMPLATE_PARAMS => "application/vnd.vmware.vcloud.uploadVAppTemplateParams+xml"
  end.

Definition org_href : string := "https://vcd/api/org/o1".
Definition catalog_href : string := "https://vcd/api/catalog/c1".
Definition item_href : string := "https://vcd/api/catalogItem/i1".
Definition template_href : string := "https://vcd/api/vAppTemplate/t1".

Definition org_doc : xml := Elem "Org" [("href", org_href)] "" [].
Definition catalog_doc : xml :=
  Elem "Catalog" [("name", "templates"); ("href", catalog_href)] ""
    [Elem "CatalogItems" [] ""
       [Elem "CatalogItem" [("name", "appliance"); ("href", item_href)] "" []]].
Definition catalog_item_doc : xml :=
  Elem "CatalogItem" [("name", "appliance"); ("href", item_href)] ""
    [Elem "Entity" [("type", media_types VAPP_TEMPLATE); ("href", template_href)] "" []].
Definition task_doc : xml := Elem "Task" [("status", "success")] "" [].

(** A transfer slot of the server-side item. *)
Definition slot (name link : string) : xml :=
  Elem "File" [("name", name)] "" [Elem "Link" [("rel", "upload:default"); ("href", link)] "" []].
Definition template_doc (slots : list xml) : xml :=
  Elem "VAppTemplate" [("href", template_href)] "" [Elem "Files" [] "" slots].

Definition one_slot : list xml := [slot "descriptor.ovf" "https://vcd/transfer/x1/descriptor.ovf"].
Definition two_slots : list xml :=
  one_slot ++ [slot "disk1.vmdk" "https://vcd/transfer/x1/disk1.vmdk"].

(** A [File] of the [References] of a descriptor. *)
Definition file_ref (href id size : string) : xml :=
  Elem "File" [(ns +:+ "href", href); (ns +:+ "id", id); (ns +:+ "size", size)] "" [].
Definition descriptor (files : list xml) : xml :=
  Elem "Envelope" [] "" [Elem "References" [] "" files].

Definition disk_bytes : list Byte.byte := [Byte.x4b; Byte.x44; Byte.x4d].
Definition ovf_bytes : list Byte.byte := [Byte.x3c; Byte.x45; Byte.x2f; Byte.x3e].

(** A server that knows one catalog with one appliance template; the
    template's slots and the outcome of a download are left open. *)
Definition server (slots_at : list event → list xml) (ovf : xml) (dl : download) : Client :=
  {| value := media_types;
     get_resource := λ tr href,
       if option_string_eqb href (Some org_href) then Return org_doc
       else if option_string_eqb href (Some catalog_href) then Return catalog_doc
       else if option_string_eqb href (Some item_href) then Return catalog_item_doc
       else if option_string_eqb href (Some template_href) then Return (template_doc (slots_at tr))
       else Raise (OtherError "NotFoundException" "404");
     post_resource := λ _ href _ _,
       if String.eqb href (catalog_href +:+ "/action/upload") then Return catalog_item_doc
       else Return task_doc;
     put_resource := λ _ _ body _, Return body;
     upload_fragment := λ _ _ _ _, Return tt;
     download_from_uri := λ _ _ _ _, Return dl;
     get_links := λ _ _ _, [{| link_name := "templates"; link_href := catalog_href |}];
     find_link := λ _ _ _,
       Return {| link_name := "descriptor";
                 link_href := "https://vcd/transfer/x1/descriptor.ovf" |};
     get_linked_resource := λ _ _ _ _, Return ovf;
     wait_for_success := λ _ task _ _, Return task |}.

Definition org_of (c : Client) : Org :=
  {| client := c; endpoint := org_href;
     endpoint_admin := "https://vcd/api/admin/org/o1"; is_admin := false |}.

(** A machine whose archives all extract to [entries] and whose
    descriptors all parse to [ovf]; its archive images are the members'
    bytes, each after a one-byte header, and an end mark when closed. *)
Definition machine (entries : list (string * list Byte.byte)) (ovf : xml) : Platform :=
  {| tmp_name := "tmp8x3k2q";
     tar_extract := λ _, Return entries;
     tar_image := λ members closed,
       (flat_map (λ m, Byte.x01 :: m.2) members ++ (if closed then [Byte.x00] else []))%list;
     etree_tostring := λ _, ovf_bytes;
     objectify_parse := λ _, Return ovf |}.

(** A world with a working directory [/work] and the given files in it. *)
Definition world_with (files : list (string * file)) : world :=
  {| fs := list_to_map (map (λ nf, ("/work/" +:+ nf.1, nf.2)) files);
     dirs := {[ "/work" := map fst files ]};
     cwd := "/work";
     clock := 0;
     trace := [] |}.

(** Scenario: a four-byte file sent in chunks of two. *)
Definition four_bytes : list Byte.byte := [Byte.x01; Byte.x02; Byte.x03; Byte.x04].
Definition plain_server : Client :=
  server (λ _, two_slots) (descriptor []) {| dl_data := []; dl_return := PyNone |}.
Definition world_four : world := world_with [("disk.img", mk_file four_bytes)].

(** Scenario: a file whose reported size (4) exceeds what a reader gets
    (2 bytes): truncated after the [stat], or a pseudo-file. *)
Definition short_file : file := {| st_size := 4; content := [Byte.x01; Byte.x02] |}.
Definition world_short : world := world_with [("short.img", short_file)].

(** Scenario: an archive without a descriptor. *)
Definition no_ovf_machine : Platform := machine [("disk1.vmdk", disk_bytes)] (descriptor []).
Definition world_ova : world := world_with [("appliance.ova", mk_file four_bytes)].

(** Scenario: an archive whose descriptor lists no member file. *)
Definition empty_manifest_machine : Platform :=
  machine [("descriptor.ovf", ovf_bytes)] (descriptor []).

(** Scenario: a descriptor and one disk. *)
Definition one_disk : xml := descriptor [file_ref "disk1.vmdk" "file1" "3"].
Definition one_disk_machine : Platform :=
  machine [("descriptor.ovf", ovf_bytes); ("disk1.vmdk", disk_bytes)] one_disk.

(** The server never allocates the slot of the disk. *)
Definition stalled_server : Client :=
  server (λ _, one_slot) one_disk {| dl_data := []; dl_return := PyNone |}.

(** The server allocates it once the history holds ten calls. *)
Definition ready_server : Client :=
  server (λ tr, if (10 <=? length tr)%nat then two_slots else one_slot) one_disk
         {| dl_data := []; dl_return := PyNone |}.

(** Scenario: downloading the appliance; the client receives the three
    bytes of the disk and returns their number. *)
Definition counting_server : Client :=
  server (λ _, two_slots) one_disk {| dl_data := disk_bytes; dl_return := PyInt 3 |}.

(** The same, with a client that returns the count as the string the
    descriptor holds. *)
Definition string_server : Client :=
  server (λ _, two_slots) one_disk {| dl_data := disk_bytes; dl_return := PyStr "3" |}.

Definition world_empty : world := world_with [].

(** [world_empty] after the appliance has been downloaded to [out.ova]
    with the [string_server]. *)
Definition world_downloaded : world :=
  {| fs := list_to_map
             [("/work/./tmp8x3k2q/descriptor.ovf", mk_file ovf_bytes);
              ("/work/./tmp8x3k2q/disk1.vmdk", mk_file disk_bytes);
              ("/work/out.ova",
               mk_file (tar_image one_disk_machine
                          [("descriptor.ovf", ovf_bytes); ("disk1.vmdk", disk_bytes)] true))];
     dirs := {[ "/work" := []; "/work/./tmp8x3k2q" := [] ]};
     cwd := "/work";
     clock := 0;
     trace := [EvGetLinked (template_doc two_slots) DOWNLOAD_DEFAULT "text/xml";
               EvDownload (Some "https://vcd/transfer/x1/disk1.vmdk")
                 "./tmp8x3k2q/disk1.vmdk" (PyStr "3")] |}.
Definition world_old_output : world := world_with [("out.ova", mk_file four_bytes)].

End Samples.

(** The error [e] is one that a statement of [upload_ovf] raised: the
    catalog lookup, [mkdtemp], or the body of the [try]; in the last case
    the workspace was still there, and it was removed before [e] went on
    to the caller in world [w']. *)
Definition raised_in_upload_ovf (sys : Platform) (self : Org) (fuel : nat) (catalog_name file_name : string)
    (item_name : option string) (description : string) (C : Z) (cb : bool)
    (w : world) (e : exn) (w' : world) : Prop :=
  get_catalog self catalog_name w = Some (Raise e, w')
  ∨ ∃ catalog w1,
      get_catalog self catalog_name w = Some (Return catalog, w1)
      ∧ (tempfile_mkdtemp sys "." w1 = Some (Raise e, w')
         ∨ ∃ tempdir w2 w3,
             tempfile_mkdtemp sys "." w1 = Some (Return tempdir, w2)
             ∧ upload_ovf_try sys self fuel catalog tempdir file_name
                 (match item_name with None => OsPath.basename file_name | Some n => n end)
                 description C cb w2 = Some (Raise e, w3)
             ∧ is_Some (dirs w3 !! resolve w3 tempdir)
             ∧ dirs w' !! resolve w3 tempdir = None
             ∧ (∀ p, under (resolve w3 tempdir) p = true → fs w' !! p = None)).

(** A client whose downloads hand back a byte count. *)
Definition returns_counts (c : Client) : Prop :=
  ∀ tr uri target size d,
    download_from_uri c tr uri target size = Return d → ∃ n, dl_return d = PyInt n.

(** A computation that leaves the directories and the working directory
    as they were. *)
Definition keeps_dirs {A} (m : M A) : Prop :=
  ∀ w r w', m w = Some (r, w') → dirs w' = dirs w ∧ cwd w' = cwd w.

(** ** The other methods of [Org] *)

(** [s[1:]] *)
Definition str_tail (s : string) : string :=
  match s with
  | EmptyString => EmptyString
  | String _ r => r
  end.

(** Does [old] occur in [s]? *)
Fixpoint occurs (old s : string) : bool :=
  String.prefix old s
  || match s with
     | EmptyString => false
     | String _ r => occurs old r
     end.

(** [Org.__init__] (org.py, lines 47-59): the object built, and its
    [org_resource] attribute.  [self.endpoint.replace] raises when neither
    an href nor a resource with an href was given. *)
Definition Org_init (c : Client) (org_href : option string) (is_admin : bool)
    (org_resource : option xml) : outcome (Org * option xml) :=
  let endpoint :=
    match org_resource with
    | Some r => get "href" r
    | None => org_href
    end in
  match endpoint with
  | None => Raise (AttributeError "'NoneType' object has no attribute 'replace'")
  | Some e =>
      Return ({| client := c;
                 endpoint := e;
                 endpoint_admin := str_replace "/api/org/" "/api/admin/org/" e;
                 is_admin := is_admin |},
              org_resource)
  end.

(** The dict built for each item by [list_catalog_items]. *)
Record catalog_entry := { ce_name : option string; ce_id : option string }.

Section OtherMethods.

Variable self : Org.

(** [create_catalog] (org.py, lines 61-67); [admin_catalog] is
    [EntityType.ADMIN_CATALOG.value]. *)
Definition create_catalog (admin_catalog : string) (name description : string) : M xml :=
  let catalog :=
    Elem "AdminCatalog" [("name", name)] "" [Elem "Description" [] description []] in
  client_post_resource self (endpoint_admin self +:+ "/catalogs") (Some catalog)
    (Some admin_catalog).

(** [share_catalog] (org.py, lines 110-120); [publish_catalog_params] is
    [EntityType.PUBLISH_CATALOG_PARAMS.value]. *)
Definition share_catalog (publish_catalog_params : string) (name : string) (share : bool) : M xml :=
  catalog <- get_catalog self name ;;
  let is_published := if share then "true" else "false" in
  let params :=
    Elem "PublishCatalogParams" [] "" [Elem "IsPublished" [] is_published []] in
  href <- str_add (get "href" catalog) "/action/publish" ;;
  let admin_href := str_replace "/api/catalog/" "/api/admin/catalog/" href in
  client_post_resource self admin_href (Some params) (Some publish_catalog_params).

(** [list_catalog_items] (org.py, lines 122-127) *)
Definition list_catalog_items (name : string) : M (list catalog_entry) :=
  catalog <- get_catalog self name ;;
  catalog_items <- lift (child "CatalogItems" catalog) ;;
  ret (map (λ i, {| ce_name := get "name" i; ce_id := get "id" i |})
           (getchildren catalog_items)).

(** The [Media] element [upload_media] posts. *)
Definition media_params (item_name : string) (size : Z) (description : string) : xml :=
  let image_type := str_tail (snd (OsPath.splitext item_name)) in
  Elem "Media"
    [("name", item_name); ("size", str_of_int size); ("imageType", image_type)] ""
    [Elem "Description" [] description []].

(** [upload_media] (org.py, lines 143-166) *)
Definition upload_media (fuel : nat) (catalog_name file_name : string)
    (item_name : option string) (description : string) (chunk_size : Z) (callback : bool) : M Z :=
  stat_info <- os_stat file_name ;;
  catalog <- get_catalog self catalog_name ;;
  let item_name :=
    match item_name with
    | None => OsPath.basename file_name
    | Some n => n
    end in
  let media := media_params item_name (st_size stat_info) description in
  href <- str_add (get "href" catalog) "/action/upload" ;;
  catalog_item <- client_post_resource self href (Some media)
                    (Some (value (client self) MEDIA)) ;;
  e <- lift (child "Entity" catalog_item) ;;
  entity <- client_get_resource self (get "href" e) ;;
  files <- lift (child "Files" entity) ;;
  f <- lift (child "File" files) ;;
  lnk <- lift (child "Link" f) ;;
  let file_href := get "href" lnk in
  upload_file self fuel file_name file_href chunk_size callback.

(** [get_vdc] (org.py, lines 338-346); [vdc] is [EntityType.VDC.value].
    The method may set [self.org_resource]: it is given the attribute and
    hands back its value after the call together with what the call did, a
    value ([None] when no link has the name) or an error of the second
    request.  When the first request fails the attribute is unchanged and
    the error goes to the caller. *)
Definition get_vdc (vdc : string) (org_resource : option xml) (name : string)
    : M (option xml * outcome (option xml)) :=
  org_resource' <-
    match org_resource with
    | None => client_get_resource self (Some (endpoint self))
    | Some r => ret r
    end ;;
  let links := get_links (client self) org_resource' DOWN vdc in
  match List.find (λ l, String.eqb name (link_name l)) links with
  | Some l =>
      r <- attempt (client_get_resource self (Some (link_href l))) ;;
      ret (Some org_resource',
           match r with
           | Return x => Return (Some x)
           | Raise e => Raise e
           end)
  | None => ret (Some org_resource', Return None)
  end.

End OtherMethods.

(** ** The methods that delete and list *)

(** What [list_catalogs] returns: a message, or a list of dicts. *)
Inductive catalogs_result (dict : Type) :=
| NoCatalogs (message : string)
| Catalogs (entries : list dict).
Arguments NoCatalogs {dict} message.
Arguments Catalogs {dict} entries.

Section DeleteAndList.

Variable self : Org.

(** The calls of the client these methods make beyond those of [Client]:
    [client.delete_resource(href)], the records that
    [client.get_typed_query(resource_type,
    query_result_format=QueryResultFormat.ID_RECORDS).execute()] yields,
    and [to_dict(record, resource_type=..., exclude=...)] of
    pyvcloud.vcd.utils.  The two requests are computations of their own:
    they may answer, raise, and record what they like. *)
Variable client_delete_resource : option string → M xml.
Variable client_typed_query : string → M (list xml).
Variable dict : Type.
Variable to_dict : xml → string → list string → dict.

(** [delete_catalog] (org.py, lines 69-79) *)
Definition delete_catalog (name : string) : M xml :=
  org <- client_get_resource self (Some (endpoint self)) ;;
  let links := get_links (client self) org DOWN (value (client self) CATALOG) in
  match List.find (λ l, String.eqb name (link_name l)) links with
  | Some l =>
      let admin_href := str_replace "/api/catalog/" "/api/admin/catalog/" (link_href l) in
      client_delete_resource (Some admin_href)
  | None => raise (Exception "Catalog not found.")
  end.

(** [delete_catalog_item] (org.py, lines 136-141) *)
Definition delete_catalog_item (name item_name : string) : M xml :=
  catalog <- get_catalog self name ;;
  catalog_items <- lift (child "CatalogItems" catalog) ;;
  match List.find (λ i, option_string_eqb (get "name" i) (Some item_name))
                  (getchildren catalog_items) with
  | Some i => client_delete_resource (get "href" i)
  | None => raise (Exception "Item not found.")
  end.

(** [list_catalogs] (org.py, lines 81-98) *)
Definition list_catalogs : M (catalogs_result dict) :=
  let resource_type := if is_admin self then "adminCatalog" else "catalog" in
  records <- client_typed_query resource_type ;;
  if (length records =? 0)%nat then ret (NoCatalogs "No catalogs found.")
  else ret (Catalogs (map (λ r, to_dict r resource_type ["owner"; "org"]) records)).

End DeleteAndList.

(** ** Reading the history, continued *)

Definition is_get (ev : event) : bool :=
  match ev with
  | EvGet _ => true
  | _ => false
  end.

(** The element [share_catalog] posts. *)
Definition publish_params (share : bool) : xml :=
  Elem "PublishCatalogParams" [] ""
    [Elem "IsPublished" [] (if share then "true" else "false") []].

(** The requests of each kind among the events. *)
Definition posts (evs : list event) : list (string * option xml * option string) :=
  flat_map (λ ev, match ev with EvPost h b m => [(h, b, m)] | _ => [] end) evs.

Definition downloads (evs : list event) : list (option string * string) :=
  flat_map (λ ev, match ev with EvDownload u t _ => [(u, t)] | _ => [] end) evs.

(** The number of slots that bear the name of a member. *)
Definition slots_named (sf : source_file) (targets : list xml) : Z :=
  Z.of_nat (length (List.filter (λ t, option_string_eqb (sf_href sf) (get "name" t)) targets)).

(** The size of a member extracted to [tempdir], 0 when it is not there. *)
Definition member_size (w : world) (tempdir : string) (sf : source_file) : Z :=
  match sf_href sf with
  | Some h =>
      match fs w !! resolve w (OsPath.join tempdir h) with
      | Some f => st_size f
      | None => 0%Z
      end
  | None => 0%Z
  end.

(** A member that [upload_file] can send whole: it has a name, its file is
    in [tempdir] with the bytes its size announces, and the fuel covers it. *)
Definition member_ready (w : world) (tempdir : string) (fuel : nat) (sf : source_file) : Prop :=
  ∃ h f,
    sf_href sf = Some h
    ∧ fs w !! resolve w (OsPath.join tempdir h) = Some f
    ∧ len (content f) = st_size f
    ∧ (Z.to_nat (st_size f) < fuel)%nat.

(** Is the first occurrence of [old] in [s] at index [n]? *)
Fixpoint first_at (old s : string) (n : nat) : bool :=
  match n with
  | O => String.prefix old s
  | S n' =>
      negb (String.prefix old s)
      && match s with
         | EmptyString => false
         | String _ r => first_at old r n'
         end
  end.

(** A computation that leaves the table of directories as it was. *)
Definition keeps_table {A} (m : M A) : Prop :=
  ∀ w r w', m w = Some (r, w') → dirs w' = dirs w.

(** A computation that, started in an absolute working directory, ends in
    the same one. *)
Definition restores_cwd {A} (m : M A) : Prop :=
  ∀ w r w', m w = Some (r, w') → OsPath.starts_with_slash (cwd w) = true → cwd w' = cwd w.

(** ** More concrete servers and worlds *)

Module MoreSamples.

Import Samples.

(** A server as [plain_server] that refuses every fragment. *)
Definition rejecting_server : Client :=
  {| value := value plain_server;
     get_resource := get_resource plain_server;
     post_resource := post_resource plain_server;
     put_resource := put_resource plain_server;
     upload_fragment := λ _ _ _ _, Raise (OtherError "RequestException" "503");
     download_from_uri := download_from_uri plain_server;
     get_links := get_links plain_server;
     find_link := find_link plain_server;
     get_linked_resource := get_linked_resource plain_server;
     wait_for_success := wait_for_success plain_server |}.

Definition world_empty_file : world := world_with [("empty.img", mk_file [])].

(** A world in which an archive has been extracted to the workspace. *)
Definition world_extracted : world :=
  world_with [("./tmp8x3k2q/descriptor.ovf", mk_file ovf_bytes);
              ("./tmp8x3k2q/disk1.vmdk", mk_file disk_bytes)].

(** A server as [counting_server] whose one item is neither a medium nor
    an appliance template. *)
Definition other_item_doc : xml :=
  Elem "CatalogItem" [("name", "appliance"); ("href", item_href)] ""
    [Elem "Entity" [("type", "application/vnd.vmware.vcloud.vApp+xml");
                    ("href", template_href)] "" []].

Definition other_type_server : Client :=
  {| value := value counting_server;
     get_resource := λ tr href,
       if option_string_eqb href (Some item_href) then Return other_item_doc
       else get_resource counting_server tr href;
     post_resource := post_resource counting_server;
     put_resource := put_resource counting_server;
     upload_fragment := upload_fragment counting_server;
     download_from_uri := download_from_uri counting_server;
     get_links := get_links counting_server;
     find_link := find_link counting_server;
     get_linked_resource := get_linked_resource counting_server;
     wait_for_success := wait_for_success counting_server |}.

(** A server as [plain_server] whose organisation has two catalogs of the
    same name. *)
Definition twin_server : Client :=
  {| value := value plain_server;
     get_resource := get_resource plain_server;
     post_resource := post_resource plain_server;
     put_resource := put_resource plain_server;
     upload_fragment := upload_fragment plain_server;
     download_from_uri := download_from_uri plain_server;
     get_links := λ _ _ _,
       [{| link_name := "media"; link_href := "https://vcd/api/catalog/c0" |};
        {| link_name := "templates"; link_href := catalog_href |};
        {| link_name := "templates"; link_href := "https://vcd/api/catalog/c2" |}];
     find_link := find_link plain_server;
     get_linked_resource := get_linked_resource plain_server;
     wait_for_success := wait_for_success plain_server |}.

End MoreSamples.

(** * Properties *)

(** ** The upload loop *)

Lemma logs_nil w : logs [] w = w.
Proof. destruct w; unfold logs; simpl. by rewrite app_nil_r. Qed.

Lemma logs_log ev evs w : logs evs (log ev w) = logs (ev :: evs) w.
Proof. unfold logs, log; simpl. by rewrite <- app_assoc. Qed.

Lemma logs_logs evs1 evs2 w : logs evs2 (logs evs1 w) = logs (evs1 ++ evs2)%list w.
Proof. unfold logs; simpl. by rewrite <- app_assoc. Qed.

Lemma upload_loop_unfold self fuel href C cb size f transferred :
  upload_loop self (S fuel) href C cb size f transferred =
  if (transferred <? size)%Z then
    let '(my_bytes, f') := f_read C f in
    if (len my_bytes <=? C)%Z then
      bind (client_upload_fragment self href my_bytes (range_str transferred (len my_bytes) size)) (λ _,
      bind (if cb then call_back (transferred + len my_bytes)%Z size else ret tt) (λ _,
      upload_loop self fuel href C cb size f' (transferred + len my_bytes)%Z))
    else upload_loop self fuel href C cb size f' transferred
  else ret transferred.
Proof. reflexivity. Qed.

Lemma ceil_step (L C k : Z) :
  (0 < C)%Z → (0 < L)%Z → k = Z.min C L →
  ((L + C - 1) / C = (L - k + C - 1) / C + 1)%Z.
Proof.
  intros HC HL ->. destruct (Z.le_gt_cases C L) as [H|H].
  - rewrite Z.min_l by lia.
    replace (L + C - 1)%Z with ((L - C + C - 1) + 1 * C)%Z by lia.
    rewrite Z.div_add by lia. lia.
  - rewrite Z.min_r by lia.
    replace (L - L + C - 1)%Z with (C - 1)%Z by lia.
    rewrite (Z.div_small (C - 1)) by lia.
    assert ((L + C - 1) / C = 1)%Z; [|lia].
    replace (L + C - 1)%Z with ((L - 1) + 1 * C)%Z by lia.
    rewrite Z.div_add by lia. rewrite Z.div_small by lia. lia.
Qed.

Lemma upload_loop_spec self href C cb size :
  accepts_fragments (client self) → (0 < C)%Z →
  ∀ fuel f transferred w,
    len f = (size - transferred)%Z →
    (length f < fuel)%nat →
    ∃ evs,
      upload_loop self fuel href C cb size f transferred w = Some (Return size, logs evs w)
      ∧ concat (map fst (fragments evs)) = f
      ∧ Z.of_nat (length (fragments evs)) = ((len f + C - 1) / C)%Z
      ∧ Forall (λ t, transferred < t ≤ size)%Z (callbacks evs)
      ∧ StronglySorted Z.lt (callbacks evs)
      ∧ (cb = true → f ≠ [] → last (callbacks evs) = Some size)
      ∧ (cb = false → callbacks evs = [])
      ∧ (cb = true → after_each_chunk evs = true).
Proof.
  intros Hacc HC. induction fuel as [|fuel IH]; intros f transferred w Hlen Hfuel; [lia|].
  rewrite upload_loop_unfold. destruct f as [|b f'].
  - unfold len in Hlen; simpl in Hlen.
    replace (transferred <? size)%Z with false by (symmetry; apply Z.ltb_ge; lia).
    exists []. rewrite logs_nil. unfold ret. replace transferred with size by lia.
    repeat split; simpl; auto; try constructor; try done.
    unfold len; simpl. symmetry. apply Z.div_small. lia.
  - set (f := b :: f') in *.
    assert (HL : (0 < len f)%Z) by (unfold len, f; simpl; lia).
    replace (transferred <? size)%Z with true by (symmetry; apply Z.ltb_lt; lia).
    unfold f_read. replace (C <? 0)%Z with false by (symmetry; apply Z.ltb_ge; lia).
    set (my := take (Z.to_nat C) f). set (f'' := drop (Z.to_nat C) f).
    assert (Hmy : len my = Z.min C (len f)).
    { unfold len, my. rewrite length_take. lia. }
    replace (len my <=? C)%Z with true by (symmetry; apply Z.leb_le; lia).
    assert (Hf'' : len f'' = (len f - len my)%Z).
    { unfold len, f'', my. rewrite length_drop, length_take. lia. }
    destruct (IH f'' (transferred + len my)%Z
                (if cb then log (EvCallback (transferred + len my) size)
                                (log (EvUploadFragment href my (range_str transferred (len my) size)) w)
                 else log (EvUploadFragment href my (range_str transferred (len my) size)) w))
      as (evs & Hrun & Hcat & Hcnt & Hall & Hsort & Hlast & Hnocb & Halt).
    { lia. }
    { unfold len in *. lia. }
    exists (EvUploadFragment href my (range_str transferred (len my) size)
            :: (if cb then [EvCallback (transferred + len my) size] else []) ++ evs)%list.
    split; [|split; [|split; [|split; [|split; [|split; [|split]]]]]].
    + unfold bind at 1. unfold client_upload_fragment. rewrite Hacc.
      unfold bind at 1. destruct cb; unfold call_back, ret; rewrite Hrun; f_equal; f_equal;
        rewrite ?logs_log; reflexivity.
    + destruct cb; simpl; rewrite Hcat; unfold my, f''; apply take_drop.
    + destruct cb; simpl; rewrite Nat2Z.inj_succ, Hcnt, Hf'';
        rewrite (ceil_step (len f) C (len my) HC HL Hmy);
        generalize ((len f - len my + C - 1) `div` C)%Z; intros; clear; lia.
    + destruct cb; simpl; [constructor; [lia|]|];
        (eapply Forall_impl; [exact Hall|]); simpl; intros; lia.
    + destruct cb; simpl; [|exact Hsort].
      constructor; [exact Hsort|].
      eapply Forall_impl; [exact Hall|]. simpl; intros; lia.
    + intros -> _. simpl. destruct f'' as [|b'' f'''] eqn:E.
      * assert (Heq : len f = len my) by (change (len []) with 0%Z in Hf''; lia).
        assert (callbacks evs = []) as ->.
        { destruct (callbacks evs) as [|t l]; [done|].
          inversion Hall; subst. lia. }
        simpl. f_equal. lia.
      * assert (Hl : last (callbacks evs) = Some size) by (by apply Hlast).
        destruct (callbacks evs); [done|exact Hl].
    + intros ->. simpl. by apply Hnocb.
    + intros ->. simpl. by apply Halt.
Qed.

(** ** Inversion of computations *)

Lemma bind_inv {A B} (m : M A) (k : A → M B) w r w' :
  bind m k w = Some (r, w') →
  (∃ e, m w = Some (Raise e, w') ∧ r = Raise e)
  ∨ (∃ a w1, m w = Some (Return a, w1) ∧ k a w1 = Some (r, w')).
Proof.
  unfold bind. destruct (m w) as [[[a|e] w1]|]; intros H; [|inversion H; subst|discriminate].
  - right. eauto.
  - left. eauto.
Qed.

Lemma bind_Return_inv {A B} (m : M A) (k : A → M B) w b w' :
  bind m k w = Some (Return b, w') →
  ∃ a w1, m w = Some (Return a, w1) ∧ k a w1 = Some (Return b, w').
Proof.
  intros H. apply bind_inv in H as [(e & _ & He)|H]; [discriminate|exact H].
Qed.

Lemma attempt_inv {A} (m : M A) w r w' :
  attempt m w = Some (r, w') → ∃ r0, m w = Some (r0, w') ∧ r = Return r0.
Proof.
  unfold attempt. destruct (m w) as [[r0 w1]|]; intros H; inversion H; subst. eauto.
Qed.

Lemma lift_inv {A} (o : outcome A) w r w' :
  lift o w = Some (r, w') → r = o ∧ w' = w.
Proof. unfold lift. intros H; inversion H; auto. Qed.

(** ** Computations that leave the directories alone *)

Lemma keeps_bind {A B} (m : M A) (k : A → M B) :
  keeps_dirs m → (∀ a, keeps_dirs (k a)) → keeps_dirs (bind m k).
Proof.
  intros Hm Hk w r w' H. apply bind_inv in H as [(e & H & _)|(a & w1 & H1 & H2)].
  - eauto.
  - destruct (Hm _ _ _ H1) as [E1 E2]. destruct (Hk _ _ _ _ H2) as [E3 E4].
    split; congruence.
Qed.

Lemma keeps_ret {A} (a : A) : keeps_dirs (ret a).
Proof. intros w r w' H. inversion H; auto. Qed.

Lemma keeps_raise {A} e : keeps_dirs (@raise A e).
Proof. intros w r w' H. inversion H; auto. Qed.

Lemma keeps_lift {A} (o : outcome A) : keeps_dirs (lift o).
Proof. intros w r w' H. inversion H; auto. Qed.

Lemma keeps_out_of_fuel {A} : keeps_dirs (@out_of_fuel A).
Proof. intros w r w' H. inversion H. Qed.

Lemma keeps_attempt {A} (m : M A) : keeps_dirs m → keeps_dirs (attempt m).
Proof. intros Hm w r w' H. apply attempt_inv in H as (r0 & H & _). eauto. Qed.

Ltac keeps_prim :=
  let w := fresh "w" in let r := fresh "r" in let w' := fresh "w'" in let H := fresh "H" in
  intros w r w' H;
  repeat match type of H with
         | context [match ?x with _ => _ end] => destruct x
         end;
  inversion H; subst; auto.

Section Keeps.
Variable self : Org.

Lemma keeps_client_get_resource h : keeps_dirs (client_get_resource self h).
Proof. keeps_prim. Qed.
Lemma keeps_client_post_resource h b m : keeps_dirs (client_post_resource self h b m).
Proof. keeps_prim. Qed.
Lemma keeps_client_put_resource h b m : keeps_dirs (client_put_resource self h b m).
Proof. keeps_prim. Qed.
Lemma keeps_client_upload_fragment h d r : keeps_dirs (client_upload_fragment self h d r).
Proof. keeps_prim. Qed.
Lemma keeps_client_download_from_uri u t s : keeps_dirs (client_download_from_uri self u t s).
Proof. unfold client_download_from_uri. keeps_prim. Qed.
Lemma keeps_call_back t s : keeps_dirs (call_back t s).
Proof. keeps_prim. Qed.
Lemma keeps_time_sleep s : keeps_dirs (time_sleep s).
Proof. keeps_prim. Qed.
Lemma keeps_print_traceback e : keeps_dirs (print_traceback e).
Proof. keeps_prim. Qed.
Lemma keeps_os_stat p : keeps_dirs (os_stat p).
Proof. unfold os_stat. keeps_prim. Qed.
Lemma keeps_open_rb p : keeps_dirs (open_rb p).
Proof. unfold open_rb. keeps_prim. Qed.
Lemma keeps_os_listdir p : keeps_dirs (os_listdir p).
Proof. unfold os_listdir. keeps_prim. Qed.
Lemma keeps_write_file p d : keeps_dirs (write_file p d).
Proof. keeps_prim. Qed.
Lemma keeps_str_add a s : keeps_dirs (str_add a s).
Proof. unfold str_add. destruct a; [apply keeps_ret|apply keeps_raise]. Qed.
Lemma keeps_add_str a s : keeps_dirs (add_str s a).
Proof. unfold add_str. destruct a; [apply keeps_ret|apply keeps_raise]. Qed.
Lemma keeps_os_path_join d a : keeps_dirs (os_path_join d a).
Proof. unfold os_path_join. destruct a; [apply keeps_ret|apply keeps_raise]. Qed.
End Keeps.

Create HintDb keeps.
#[export] Hint Resolve keeps_ret keeps_raise keeps_lift keeps_out_of_fuel keeps_attempt
  keeps_client_get_resource keeps_client_post_resource keeps_client_put_resource
  keeps_client_upload_fragment keeps_client_download_from_uri keeps_call_back
  keeps_time_sleep keeps_print_traceback keeps_os_stat keeps_open_rb keeps_os_listdir
  keeps_write_file keeps_str_add keeps_add_str keeps_os_path_join : keeps.

(** Walks through the binds and the case distinctions of a computation. *)
Ltac keeps :=
  repeat first
    [ progress eauto with keeps
    | apply keeps_bind; [|intros ?]
    | match goal with
      | |- keeps_dirs (match ?x with _ => _ end) => destruct x
      | |- keeps_dirs (if ?b then _ else _) => destruct b
      end ].

Section KeepsOrg.
Variable sys : Platform.
Variable self : Org.

Lemma keeps_upload_loop fuel href C cb size f t :
  keeps_dirs (upload_loop self fuel href C cb size f t).
Proof.
  revert f t. induction fuel as [|fuel IH]; intros f t; [apply keeps_out_of_fuel|].
  simpl. destruct (f_read C f) as [my f']. keeps.
Qed.

Lemma keeps_upload_file fuel n href C cb : keeps_dirs (upload_file self fuel n href C cb).
Proof. unfold upload_file. pose proof keeps_upload_loop. keeps. Qed.

Lemma keeps_get_catalog name : keeps_dirs (get_catalog self name).
Proof. unfold get_catalog. keeps. Qed.

Lemma keeps_poll_slots fuel ci : keeps_dirs (poll_slots self fuel ci).
Proof. induction fuel as [|fuel IH]; simpl; keeps. Qed.

Lemma keeps_upload_to_slots fuel td C cb sf targets total :
  keeps_dirs (upload_to_slots self fuel td C cb sf targets total).
Proof.
  revert total. pose proof keeps_upload_file.
  induction targets as [|t targets IH]; intros total; simpl; keeps.
Qed.

Lemma keeps_upload_members fuel td C cb entity files total :
  keeps_dirs (upload_members self fuel td C cb entity files total).
Proof.
  revert total. pose proof keeps_upload_to_slots.
  induction files as [|f files IH]; intros total; simpl; keeps.
Qed.

Lemma keeps_upload_descriptor_and_members fuel catalog td ovf name descr C cb total :
  keeps_dirs (upload_descriptor_and_members sys self fuel catalog td ovf name descr C cb total).
Proof.
  unfold upload_descriptor_and_members.
  pose proof keeps_poll_slots. pose proof keeps_upload_members. keeps.
Qed.
End KeepsOrg.

(** ** upload_file *)

Lemma upload_file_found self fuel file_name href C cb w f :
  fs w !! resolve w file_name = Some f →
  upload_file self fuel file_name href C cb w =
  upload_loop self fuel href C cb (st_size f) (content f) 0%Z w.
Proof.
  intros Hf. unfold upload_file, bind, os_stat, open_rb. rewrite Hf. simpl.
  rewrite Hf. reflexivity.
Qed.

(** A reader at the end of the file before the size is reached: the loop
    goes round for ever, whatever the chunk size. *)
Lemma upload_loop_starves self href C cb size :
  accepts_fragments (client self) →
  ∀ fuel t w, (t < size)%Z → upload_loop self fuel href C cb size [] t w = None.
Proof.
  intros Hacc. induction fuel as [|fuel IH]; intros t w Ht; [reflexivity|].
  rewrite upload_loop_unfold.
  replace (t <? size)%Z with true by (symmetry; apply Z.ltb_lt; lia).
  assert (f_read C [] = ([], [])) as ->.
  { unfold f_read. destruct (C <? 0)%Z; [reflexivity|]. by rewrite take_nil, drop_nil. }
  change (len []) with 0%Z. rewrite Z.add_0_r.
  destruct (0 <=? C)%Z; [|by apply IH].
  unfold bind at 1. unfold client_upload_fragment. rewrite Hacc.
  unfold bind at 1. destruct cb; unfold call_back, ret; by apply IH.
Qed.

(** A file that yields fewer bytes than its reported size. *)
Lemma upload_loop_short self href C cb size :
  accepts_fragments (client self) → (0 < C)%Z →
  ∀ fuel f t w, (len f < size - t)%Z → upload_loop self fuel href C cb size f t w = None.
Proof.
  intros Hacc HC. induction fuel as [|fuel IH]; intros f t w Hlt; [reflexivity|].
  destruct f as [|b f'].
  { apply upload_loop_starves; [done|]. change (len []) with 0%Z in Hlt. lia. }
  rewrite upload_loop_unfold.
  assert (0 <= len (b :: f'))%Z by (unfold len; lia).
  replace (t <? size)%Z with true by (symmetry; apply Z.ltb_lt; lia).
  unfold f_read. replace (C <? 0)%Z with false by (symmetry; apply Z.ltb_ge; lia).
  assert (Hmy : len (take (Z.to_nat C) (b :: f')) = Z.min C (len (b :: f'))).
  { unfold len. rewrite length_take. lia. }
  assert (Hrest : len (drop (Z.to_nat C) (b :: f')) =
                  (len (b :: f') - len (take (Z.to_nat C) (b :: f')))%Z).
  { unfold len. rewrite length_drop, length_take. lia. }
  replace (len (take (Z.to_nat C) (b :: f')) <=? C)%Z with true
    by (symmetry; apply Z.leb_le; lia).
  unfold bind at 1. unfold client_upload_fragment. rewrite Hacc.
  unfold bind at 1. destruct cb; unfold call_back, ret; apply IH; lia.
Qed.

Lemma upload_file_short self file_name href C cb w f :
  accepts_fragments (client self) → (0 < C)%Z →
  fs w !! resolve w file_name = Some f →
  (len (content f) < st_size f)%Z →
  ∀ fuel, upload_file self fuel file_name href C cb w = None.
Proof.
  intros Hacc HC Hf Hlt fuel. rewrite (upload_file_found _ _ _ _ _ _ _ f Hf).
  apply upload_loop_short; [done|done|lia].
Qed.

Lemma upload_file_whole self file_name href C cb w f fuel :
  accepts_fragments (client self) → (0 < C)%Z →
  fs w !! resolve w file_name = Some f →
  len (content f) = st_size f →
  (Z.to_nat (st_size f) < fuel)%nat →
  ∃ evs,
    upload_file self fuel file_name href C cb w = Some (Return (st_size f), logs evs w)
    ∧ concat (map fst (fragments evs)) = content f
    ∧ Z.of_nat (length (fragments evs)) = ((st_size f + C - 1) / C)%Z
    ∧ StronglySorted Z.lt (callbacks evs)
    ∧ (cb = true → after_each_chunk evs = true)
    ∧ (cb = true → (0 < st_size f)%Z → last (callbacks evs) = Some (st_size f))
    ∧ (cb = false → callbacks evs = []).
Proof.
  intros Hacc HC Hf Hlen Hfuel. rewrite (upload_file_found _ _ _ _ _ _ _ f Hf).
  destruct (upload_loop_spec self href C cb (st_size f) Hacc HC fuel (content f) 0%Z w)
    as (evs & Hrun & Hcat & Hcnt & _ & Hsort & Hlast & Hno & Halt).
  { lia. }
  { unfold len in Hlen. lia. }
  exists evs. rewrite Hlen in Hcnt. repeat split; try done.
  intros Hcb Hpos. apply Hlast; [done|]. intros E. rewrite E in Hlen.
  change (len []) with 0%Z in Hlen. lia.
Qed.

Import Samples.

Lemma plain_server_accepts : accepts_fragments (client (org_of plain_server)).
Proof. intros tr href data range. reflexivity. Qed.



(** C1.  A file of four bytes sent in chunks of two: [upload_file] makes
    two submissions, ceil(4/2), whose bytes are the two halves of the
    file, but the range header of the second is [bytes 2-1/4]: the end
    written is [len(my_bytes) - 1], not [offset + len - 1].  The header
    the specification gives for that fragment is [bytes 2-3/4]. *)
Theorem upload_file_second_range_header :
  ∃ w',
    upload_file (org_of plain_server) 5 "disk.img" (Some "https://vcd/transfer/x1/disk.img")
      2 false world_four = Some (Return 4%Z, w')
    ∧ fragments (trace w') =
        [([Byte.x01; Byte.x02], "bytes 0-1/4"); ([Byte.x03; Byte.x04], "bytes 2-1/4")]
    ∧ spec_range_str 2 2 4 = "bytes 2-3/4"
    ∧ range_str 2 2 4 ≠ spec_range_str 2 2 4.
Proof.
  eexists. split; [vm_compute; reflexivity|].
  split; [vm_compute; reflexivity|]. split; [reflexivity|]. vm_compute. discriminate.
Qed.

(** C7.  A file whose reported size is 4 and whose reader gives 2 bytes
    and then nothing: after the first fragment every read returns zero
    bytes, [transferred] stays at 2, and the loop of [upload_file] does not
    end, whatever the fuel; no failure is raised. *)
Theorem upload_file_zero_byte_read_never_returns :
  ∀ fuel,
    upload_file (org_of plain_server) fuel "short.img" (Some "https://vcd/transfer/x1/short.img")
      2 true world_short = None.
Proof.
  apply (upload_file_short (org_of plain_server) "short.img" _ 2 true world_short short_file).
  - exact plain_server_accepts.
  - lia.
  - reflexivity.
  - vm_compute. reflexivity.
Qed.

(** ** The slot poll *)

Section Poll.
Variable self : Org.
Variables catalog_item e : xml.
Hypothesis Hentity : child "Entity" catalog_item = Return e.

Let round := next_round (get "href" e).

Lemma poll_response_next w k :
  poll_response self (round w) (get "href" e) k
  = poll_response self w (get "href" e) (S k).
Proof.
  unfold poll_response, poll_history, round, next_round. simpl.
  repeat rewrite <- app_assoc. reflexivity.
Qed.

Lemma poll_slots_round fuel w :
  poll_slots self (S fuel) catalog_item w =
  match poll_response self w (get "href" e) 0 with
  | Raise x => Some (Raise x, round w)
  | Return entity =>
      match count_files entity with
      | Raise x => Some (Raise x, round w)
      | Return n =>
          if (1 <? n)%Z then Some (Return entity, round w)
          else poll_slots self fuel catalog_item (round w)
      end
  end.
Proof.
  simpl. unfold bind, time_sleep, lift, client_get_resource. rewrite Hentity.
  unfold poll_response, poll_history, round, next_round. simpl.
  destruct (get_resource _ _ _) as [entity|x]; [|reflexivity].
  destruct (count_files entity) as [n|x]; [|reflexivity].
  destruct (1 <? n)%Z; reflexivity.
Qed.

Lemma poll_slots_pending fuel :
  ∀ w, (∀ k, (k < fuel)%nat → ends_poll (poll_response self w (get "href" e) k) = false) →
       poll_slots self fuel catalog_item w = None.
Proof.
  induction fuel as [|fuel IH]; intros w Hpending; [reflexivity|].
  rewrite poll_slots_round.
  pose proof (Hpending 0%nat ltac:(lia)) as H0. unfold ends_poll in H0.
  destruct (poll_response self w (get "href" e) 0) as [entity|x]; [|discriminate].
  destruct (count_files entity) as [n|x]; [|discriminate].
  rewrite H0. apply IH. intros k Hk. rewrite poll_response_next. apply Hpending. lia.
Qed.

Lemma poll_slots_ends k :
  ∀ fuel w,
    ends_poll (poll_response self w (get "href" e) k) = true →
    (∀ j, (j < k)%nat → ends_poll (poll_response self w (get "href" e) j) = false) →
    (k < fuel)%nat →
    ∃ r w', poll_slots self fuel catalog_item w = Some (r, w')
            ∧ clock w' = (clock w + 5 * (Z.of_nat k + 1))%Z.
Proof.
  induction k as [|k IH]; intros fuel w Hend Hbefore Hfuel;
    (destruct fuel as [|fuel]; [lia|]); rewrite poll_slots_round.
  - unfold ends_poll in Hend.
    destruct (poll_response self w (get "href" e) 0) as [entity|x].
    + destruct (count_files entity) as [n|x].
      * rewrite Hend. eexists _, _. split; [reflexivity|]. simpl. lia.
      * eexists _, _. split; [reflexivity|]. simpl. lia.
    + eexists _, _. split; [reflexivity|]. simpl. lia.
  - pose proof (Hbefore 0%nat ltac:(lia)) as H0. unfold ends_poll in H0.
    destruct (poll_response self w (get "href" e) 0) as [entity|x]; [|discriminate].
    destruct (count_files entity) as [n|x]; [|discriminate].
    rewrite H0.
    destruct (IH fuel (round w)) as (r & w' & Hrun & Hclock).
    + by rewrite poll_response_next.
    + intros j Hj. rewrite poll_response_next. apply Hbefore. lia.
    + lia.
    + exists r, w'. split; [exact Hrun|]. rewrite Hclock. simpl. lia.
Qed.
End Poll.

Lemma bounded_search (P : nat → bool) n :
  (∀ j, (j < n)%nat → P j = false) ∨ (∃ j, (j < n)%nat ∧ P j = true).
Proof.
  induction n as [|n [IH|(j & Hj & HP)]].
  - left. intros j Hj. lia.
  - destruct (P n) eqn:E.
    + right. exists n. split; [lia|done].
    + left. intros j Hj. destruct (decide (j = n)) as [->|Hne]; [done|]. apply IH. lia.
  - right. exists j. split; [lia|done].
Qed.

(** The first index at which a decidable property holds. *)
Lemma first_true (P : nat → bool) k :
  P k = true → ∃ k0, P k0 = true ∧ ∀ j, (j < k0)%nat → P j = false.
Proof.
  induction k as [k IH] using lt_wf_ind. intros Hk.
  destruct (bounded_search P k) as [Hnone|(j & Hj & HPj)].
  - exists k. split; done.
  - exact (IH j Hj HPj).
Qed.

Lemma poll_slots_terminates_iff self catalog_item e w :
  child "Entity" catalog_item = Return e →
  (∃ fuel, poll_slots self fuel catalog_item w ≠ None)
  ↔ (∃ k, ends_poll (poll_response self w (get "href" e) k) = true).
Proof.
  intros Hentity. split.
  - intros (fuel & Hrun).
    destruct (bounded_search (λ k, ends_poll (poll_response self w (get "href" e) k)) fuel)
      as [Hnone|(k & _ & Hk)]; [|eauto].
    exfalso. apply Hrun. by apply (poll_slots_pending self catalog_item e Hentity).
  - intros (k & Hk).
    destruct (first_true (λ k, ends_poll (poll_response self w (get "href" e) k)) k Hk)
      as (k0 & Hk0 & Hbefore).
    destruct (poll_slots_ends self catalog_item e Hentity k0 (S k0) w Hk0 Hbefore ltac:(lia))
      as (r & w' & Hrun & _).
    exists (S k0). rewrite Hrun. discriminate.
Qed.

(** ** upload_ovf *)

Lemma find_ovf_none tempdir (entries : list (string * list Byte.byte)) :
  Forall (λ e, snd (OsPath.splitext e.1) ≠ ".ovf") entries →
  find_ovf tempdir (map fst entries) = None.
Proof.
  intros Hall. unfold find_ovf.
  assert (List.find (λ f, String.eqb (snd (OsPath.splitext f)) ".ovf") (map fst entries) = None) as ->;
    [|reflexivity].
  induction Hall as [|e entries He _ IH]; [reflexivity|]. simpl.
  destruct (String.eqb_spec (snd (OsPath.splitext e.1)) ".ovf") as [E|_]; [by destruct He|exact IH].
Qed.

Section UploadOvf.
Variable sys : Platform.
Variable self : Org.

(** What the body of the [try] does to the directories: when it returns
    the workspace is gone; when it raises the workspace is still there. *)
Lemma upload_ovf_try_dirs fuel catalog tempdir file_name item_name description C cb w r w' :
  upload_ovf_try sys self fuel catalog tempdir file_name item_name description C cb w
    = Some (r, w') →
  is_Some (dirs w !! resolve w tempdir) →
  cwd w' = cwd w
  ∧ match r with
    | Return _ => dirs w' = delete (resolve w tempdir) (dirs w)
    | Raise _ => ∃ l, dirs w' = <[resolve w tempdir := l]> (dirs w)
    end.
Proof.
  intros Hrun [l0 Hl0]. unfold upload_ovf_try in Hrun.
  assert (Hsame : ∃ l, dirs w = <[resolve w tempdir := l]> (dirs w)).
  { exists l0. by rewrite insert_id. }
  apply bind_inv in Hrun as [(ex & Hrun & ->)|(? & w1 & Hext & Hrun)].
  { (* the archive cannot be read *)
    unfold tarfile_extractall in Hrun.
    apply bind_inv in Hrun as [(? & Hrun & _)|(data & w0 & Hopen & Hrun)].
    - destruct (keeps_open_rb _ _ _ _ Hrun) as [-> ->]. done.
    - destruct (keeps_open_rb _ _ _ _ Hopen) as [Ed Ec].
      apply bind_inv in Hrun as [(? & Hrun & _)|(entries & w0' & _ & Hrun)].
      + apply lift_inv in Hrun as [_ ->]. rewrite Ed, Ec. done.
      + inversion Hrun. }
  (* extracted *)
  assert (Hw1 : cwd w1 = cwd w ∧ ∃ l, dirs w1 = <[resolve w tempdir := l]> (dirs w)).
  { unfold tarfile_extractall in Hext.
    apply bind_inv in Hext as [(? & _ & ?)|(data & w0 & Hopen & Hext)]; [discriminate|].
    destruct (keeps_open_rb _ _ _ _ Hopen) as [Ed Ec].
    apply bind_inv in Hext as [(? & _ & ?)|(entries & w0' & Hl & Hext)]; [discriminate|].
    apply lift_inv in Hl as [_ ->]. inversion Hext; subst. simpl.
    unfold resolve. rewrite Ec, Ed. eauto. }
  destruct Hw1 as [Ec1 [l1 Ed1]].
  apply bind_inv in Hrun as [(ex & Hrun & ->)|(files & w2 & Hls & Hrun)].
  { destruct (keeps_os_listdir _ _ _ _ Hrun) as [-> ->]. eauto. }
  destruct (keeps_os_listdir _ _ _ _ Hls) as [Ed2 Ec2].
  apply bind_inv in Hrun as [(ex & Hrun & ->)|(total & w3 & Hmid & Hrun)].
  { assert (dirs w' = dirs w2 ∧ cwd w' = cwd w2) as [-> ->]; [|rewrite Ed2, Ec2; eauto].
    destruct (find_ovf tempdir files).
    - exact (keeps_upload_descriptor_and_members _ _ _ _ _ _ _ _ _ _ _ _ _ _ Hrun).
    - exact (keeps_ret _ _ _ _ Hrun). }
  assert (dirs w3 = dirs w2 ∧ cwd w3 = cwd w2) as [Ed3 Ec3].
  { destruct (find_ovf tempdir files).
    - exact (keeps_upload_descriptor_and_members _ _ _ _ _ _ _ _ _ _ _ _ _ _ Hmid).
    - exact (keeps_ret _ _ _ _ Hmid). }
  assert (Hkey : resolve w3 tempdir = resolve w tempdir).
  { unfold resolve. by rewrite Ec3, Ec2, Ec1. }
  assert (Hpresent : dirs w3 !! resolve w tempdir = Some l1).
  { rewrite Ed3, Ed2, Ed1. apply lookup_insert_eq. }
  apply bind_inv in Hrun as [(ex & Hrun & ->)|([] & w4 & Hrm & Hrun)];
    unfold shutil_rmtree in *; rewrite ?Hkey, ?Hpresent in *.
  - inversion Hrun.
  - inversion Hrm; subst; clear Hrm. inversion Hrun; subst; clear Hrun. simpl.
    split; [congruence|]. rewrite Ed3, Ed2, Ed1. apply delete_insert_eq.
Qed.

Lemma upload_ovf_exits fuel catalog_name file_name item_name description C cb w r w' :
  upload_ovf sys self fuel catalog_name file_name item_name description C cb w = Some (r, w') →
  dirs w' = dirs w
  ∧ ∀ e, r = Raise e →
         raised_in_upload_ovf sys self fuel catalog_name file_name item_name description C cb
           w e w'.
Proof.
  intros Hrun. unfold upload_ovf in Hrun. unfold raised_in_upload_ovf.
  apply bind_inv in Hrun as [(ex & Hrun & ->)|(catalog & w1 & Hcat & Hrun)].
  { destruct (keeps_get_catalog _ _ _ _ _ Hrun) as [Ed _].
    split; [done|]. intros e [= <-]. by left. }
  destruct (keeps_get_catalog _ _ _ _ _ Hcat) as [Ed1 Ec1].
  apply bind_inv in Hrun as [(ex & Hrun & ->)|(tempdir & w2 & Htmp & Hrun)].
  { assert (w' = w1) as ->.
    { unfold tempfile_mkdtemp in Hrun. destruct (dirs w1 !! _); by inversion Hrun. }
    split; [done|]. intros e [= <-]. right. exists catalog, w1. split; [done|]. by left. }
  assert (Hfresh : dirs w1 !! resolve w1 tempdir = None
                   ∧ w2 = set_dirs (insert (resolve w1 tempdir) []) w1).
  { unfold tempfile_mkdtemp in Htmp.
    destruct (dirs w1 !! _) eqn:E; inversion Htmp; subst. done. }
  destruct Hfresh as [Hfresh ->].
  set (w2 := set_dirs (insert (resolve w1 tempdir) []) w1) in *.
  assert (Hkey2 : resolve w2 tempdir = resolve w1 tempdir) by reflexivity.
  apply bind_inv in Hrun as [(ex & Hrun & _)|(r0 & w3 & Htry & Hrun)].
  { apply attempt_inv in Hrun as (? & _ & ?). discriminate. }
  apply attempt_inv in Htry as (r1 & Htry & [= ->]).
  destruct (upload_ovf_try_dirs _ _ _ _ _ _ _ _ _ _ _ Htry) as [Ec3 Hd3].
  { rewrite Hkey2. unfold w2. simpl. rewrite lookup_insert_eq. eauto. }
  rewrite Hkey2 in Hd3.
  destruct r1 as [total|e].
  - inversion Hrun; subst; clear Hrun. split; [|discriminate].
    rewrite Hd3. unfold w2. simpl. rewrite delete_insert_id by done. done.
  - destruct Hd3 as [l Hd3].
    assert (Hkey3 : resolve w3 tempdir = resolve w1 tempdir).
    { unfold resolve. by rewrite Ec3. }
    unfold bind, print_traceback, shutil_rmtree, raise in Hrun. simpl in Hrun.
    change (resolve (log _ w3) tempdir) with (resolve w3 tempdir) in Hrun.
    rewrite Hkey3, Hd3, lookup_insert_eq in Hrun. inversion Hrun; subst; clear Hrun.
    simpl. rewrite Hd3. unfold w2 at 1. simpl.
    rewrite delete_insert_eq, delete_insert_id by done.
    split; [done|]. intros e' [= <-]. right. exists catalog, w1. split; [done|].
    right. exists tempdir, w2, w3. split; [done|]. split; [done|].
    rewrite Hkey3. split; [|split].
    + rewrite Hd3, lookup_insert_eq. eauto.
    + exact Hfresh.
    + intros p Hp. apply map_lookup_filter_None. right. intros f _. simpl. congruence.
Qed.
End UploadOvf.

Lemma upload_ovf_no_descriptor sys self fuel catalog_name file_name item_name description C cb
    w catalog w1 f entries :
  get_catalog self catalog_name w = Some (Return catalog, w1) →
  dirs w1 !! resolve w1 (OsPath.join "." (tmp_name sys)) = None →
  fs w1 !! resolve w1 file_name = Some f →
  tar_extract sys (content f) = Return entries →
  Forall (λ e, snd (OsPath.splitext e.1) ≠ ".ovf") entries →
  ∃ w', upload_ovf sys self fuel catalog_name file_name item_name description C cb w
          = Some (Return 0%Z, w')
        ∧ trace w' = trace w1 ∧ dirs w' = dirs w1.
Proof.
  intros Hcat Hfresh Hf Hext Hnone.
  unfold upload_ovf. unfold bind at 1. rewrite Hcat.
  unfold bind at 1. unfold tempfile_mkdtemp. rewrite Hfresh.
  set (tempdir := OsPath.join "." (tmp_name sys)) in *.
  set (w2 := set_dirs _ w1).
  unfold bind at 1. unfold attempt, upload_ovf_try.
  unfold bind at 1. unfold tarfile_extractall.
  unfold bind at 1. unfold open_rb.
  change (fs w2 !! resolve w2 file_name) with (fs w1 !! resolve w1 file_name). rewrite Hf.
  unfold bind at 1. unfold lift. rewrite Hext.
  set (w3 := set_dirs _ (set_fs _ w2)).
  unfold bind at 1. unfold os_listdir.
  assert (dirs w3 !! resolve w3 tempdir = Some (map fst entries)) as ->.
  { unfold w3. simpl. apply lookup_insert_eq. }
  rewrite (find_ovf_none tempdir entries Hnone).
  unfold bind at 1. unfold ret at 1.
  unfold bind at 1. unfold shutil_rmtree.
  assert (dirs w3 !! resolve w3 tempdir = Some (map fst entries)) as ->.
  { unfold w3. simpl. apply lookup_insert_eq. }
  unfold ret. eexists. split; [reflexivity|]. simpl. split; [reflexivity|].
  rewrite delete_insert_eq. by apply delete_insert_id.
Qed.



(** C4, as amended.  When the catalog is found, [mkdtemp] succeeds and the
    archive extracts to entries none of which has the extension [.ovf],
    [upload_ovf] raises nothing: it returns 0, makes no call on the client
    after the catalog lookup, and removes the workspace. *)
Theorem upload_ovf_without_descriptor_returns_zero :
  ∀ sys self fuel catalog_name file_name item_name description C cb w catalog w1 f entries,
    get_catalog self catalog_name w = Some (Return catalog, w1) →
    dirs w1 !! resolve w1 (OsPath.join "." (tmp_name sys)) = None →
    fs w1 !! resolve w1 file_name = Some f →
    tar_extract sys (content f) = Return entries →
    Forall (λ e, snd (OsPath.splitext e.1) ≠ ".ovf") entries →
    ∃ w', upload_ovf sys self fuel catalog_name file_name item_name description C cb w
            = Some (Return 0%Z, w')
          ∧ trace w' = trace w1 ∧ dirs w' = dirs w1.
Proof. intros. by eapply upload_ovf_no_descriptor. Qed.

Lemma upload_ovf_without_descriptor_returns_zero_witness :
  ∃ w', upload_ovf no_ovf_machine (org_of plain_server) 10 "templates" "appliance.ova" None
          "an appliance" 2 true world_ova = Some (Return 0%Z, w')
        ∧ trace w' = [EvGet (Some org_href); EvGet (Some catalog_href)]
        ∧ dirs w' = dirs world_ova.
Proof.
  apply (upload_ovf_without_descriptor_returns_zero no_ovf_machine (org_of plain_server) 10
           "templates" "appliance.ova" None "an appliance" 2 true world_ova catalog_doc
           (logs [EvGet (Some org_href); EvGet (Some catalog_href)] world_ova)
           (mk_file four_bytes) [("disk1.vmdk", disk_bytes)]).
  - vm_compute. reflexivity.
  - vm_compute. reflexivity.
  - vm_compute. reflexivity.
  - reflexivity.
  - repeat constructor. vm_compute. discriminate.
Defined.

(** An archive that holds a disk and no descriptor: [upload_ovf] returns
    0 and raises nothing. *)
Lemma upload_ovf_without_descriptor_is_no_error :
  ∃ w', upload_ovf no_ovf_machine (org_of plain_server) 10 "templates" "appliance.ova" None
          "an appliance" 2 true world_ova = Some (Return 0%Z, w')
        ∧ ∀ e w'', upload_ovf no_ovf_machine (org_of plain_server) 10 "templates" "appliance.ova"
                     None "an appliance" 2 true world_ova ≠ Some (Raise e, w'').
Proof.
  eexists. split; [vm_compute; reflexivity|]. intros e w''. vm_compute. discriminate.
Qed.

(** C8.  An archive whose descriptor has a [References] element without
    any [File]: the lookup [References.File] raises [AttributeError];
    [upload_ovf] removes the workspace and raises that error, having sent
    nothing, whatever the fuel. *)
Theorem upload_ovf_empty_manifest_raises :
  ∀ fuel,
    upload_ovf empty_manifest_machine (org_of plain_server) fuel "templates" "appliance.ova" None
      "an appliance" 2 true world_ova
    = Some (Raise (AttributeError "no such child: File"),
            logs [EvGet (Some org_href); EvGet (Some catalog_href);
                  EvPrint "Traceback (most recent call last):"] world_ova).
Proof. intros fuel. vm_compute. reflexivity. Qed.

Lemma stalled_server_never_ready w k :
  ends_poll (poll_response (org_of stalled_server) w (Some template_href) k) = false.
Proof. reflexivity. Qed.

Lemma bind_None {A B} (m : M A) (k : A → M B) w a w1 :
  m w = Some (Return a, w1) → k a w1 = None → bind m k w = None.
Proof. intros Hm Hk. unfold bind. by rewrite Hm. Qed.

Lemma bind_None_l {A B} (m : M A) (k : A → M B) w :
  m w = None → bind m k w = None.
Proof. intros Hm. unfold bind. by rewrite Hm. Qed.

Lemma attempt_None {A} (m : M A) w : m w = None → attempt m w = None.
Proof. intros Hm. unfold attempt. by rewrite Hm. Qed.

(** Runs the next statement of a computation that is to be shown endless. *)
Ltac run_statement := cbv beta zeta; eapply bind_None; [vm_compute; reflexivity|].

Lemma stalled_upload_out_of_fuel :
  ∀ fuel,
    upload_ovf one_disk_machine (org_of stalled_server) fuel "templates" "appliance.ova" None
      "an appliance" 2 true world_ova = None.
Proof.
  intros fuel. unfold upload_ovf.
  do 2 run_statement. apply bind_None_l, attempt_None.
  unfold upload_ovf_try. do 2 run_statement.
  apply bind_None_l.
  match goal with
  | |- context [find_ovf ?t ?l] =>
      replace (find_ovf t l) with (Some "./tmp8x3k2q/descriptor.ovf") by (vm_compute; reflexivity)
  end.
  unfold upload_descriptor_and_members.
  do 13 run_statement.
  apply bind_None_l.
  apply (poll_slots_pending (org_of stalled_server) catalog_item_doc
           (Elem "Entity" [("type", media_types VAPP_TEMPLATE); ("href", template_href)] "" [])
           eq_refl fuel).
  intros k _. apply stalled_server_never_ready.
Qed.

(** A server that goes on reporting the one slot of the descriptor: there
    is no fuel with which [upload_ovf] ends, be it by an error. *)
Lemma upload_ovf_polls_forever :
  ¬ ∃ fuel r w',
      upload_ovf one_disk_machine (org_of stalled_server) fuel "templates" "appliance.ova" None
        "an appliance" 2 true world_ova = Some (r, w').
Proof. intros (fuel & r & w' & Hrun). by rewrite stalled_upload_out_of_fuel in Hrun. Qed.

(** C6, as amended.  The poll loop of [upload_ovf] ends exactly when some
    round's answer ends it: the request or the lookup of [Files.File]
    raises, or more than one [File] is reported.  There is no deadline: if
    no round does, the loop does not end for any fuel. *)
Theorem poll_slots_terminates_iff_slots_reported :
  ∀ self catalog_item e w,
    child "Entity" catalog_item = Return e →
    (∃ fuel, poll_slots self fuel catalog_item w ≠ None)
    ↔ (∃ k, ends_poll (poll_response self w (get "href" e) k) = true).
Proof. intros. by apply poll_slots_terminates_iff. Qed.

Lemma poll_slots_terminates_iff_slots_reported_witness :
  (∃ fuel, poll_slots (org_of ready_server) fuel catalog_item_doc world_ova ≠ None)
  ↔ (∃ k, ends_poll (poll_response (org_of ready_server) world_ova (Some template_href) k) = true).
Proof.
  apply (poll_slots_terminates_iff_slots_reported (org_of ready_server) catalog_item_doc
           (Elem "Entity" [("type", media_types VAPP_TEMPLATE); ("href", template_href)] "" [])
           world_ova).
  reflexivity.
Defined.

(** ** download_catalog_item, appliance templates *)

Section DownloadVapp.
Variable sys : Platform.
Variable self : Org.

Lemma keeps_download_files tempdir uri fl files :
  keeps_dirs (download_files self tempdir uri fl files).
Proof. revert files. induction fl as [|f fl IH]; intros files; simpl; keeps. Qed.

Lemma keeps_tar_add tar members name : keeps_dirs (tar_add sys tar members name).
Proof.
  unfold tar_add. destruct name as [n|]; [|apply keeps_raise].
  apply keeps_bind; [apply keeps_open_rb|]. intros data w r w' H. by inversion H.
Qed.

Lemma tar_add_all_extends tar files :
  ∀ members w m' w',
    tar_add_all sys tar members files w = Some (Return m', w') →
    (∃ more, m' = members ++ more)%list ∧ dirs w' = dirs w ∧ cwd w' = cwd w.
Proof.
  induction files as [|f files IH]; intros members w m' w' Hrun; simpl in Hrun.
  - inversion Hrun; subst. split; [|done]. exists []. by rewrite app_nil_r.
  - apply bind_Return_inv in Hrun as (m1 & w1 & Hadd & Hrun).
    destruct (keeps_tar_add _ _ _ _ _ _ Hadd) as [Ed Ec].
    destruct (IH _ _ _ _ Hrun) as ((more & ->) & Ed' & Ec').
    split; [|split; congruence].
    unfold tar_add in Hadd. destruct (sf_href f) as [n|]; [|discriminate].
    apply bind_Return_inv in Hadd as (data & w0 & _ & Hadd). inversion Hadd; subst.
    exists ((n, data) :: more). by rewrite <- app_assoc.
Qed.

(** A normal end of the body of the [try]: the directories are as they
    were and the archive, closed, is at the output path. *)
Lemma download_vapp_try_returns ovf uri tempdir file_name w u w' :
  download_vapp_try sys self ovf uri tempdir file_name w = Some (Return u, w') →
  dirs w' = dirs w
  ∧ ∃ members,
      fs w' !! resolve w file_name = Some (mk_file (tar_image sys members true))
      ∧ ∃ d rest, members = ("descriptor.ovf", d) :: rest.
Proof.
  intros Hrun. unfold download_vapp_try in Hrun.
  apply bind_Return_inv in Hrun as ([] & w1 & Hwrite & Hrun).
  destruct (keeps_write_file _ _ _ _ _ Hwrite) as [Ed1 Ec1].
  apply bind_Return_inv in Hrun as (refs & ? & Hl & Hrun). apply lift_inv in Hl as [_ ->].
  apply bind_Return_inv in Hrun as (fl & ? & Hl & Hrun). apply lift_inv in Hl as [_ ->].
  apply bind_Return_inv in Hrun as (files & w2 & Hdl & Hrun).
  destruct (keeps_download_files _ _ _ _ _ _ _ Hdl) as [Ed2 Ec2].
  apply bind_Return_inv in Hrun as (tar & w3 & Hopen & Hrun).
  unfold tarfile_open_w in Hopen. inversion Hopen; subst tar w3; clear Hopen.
  apply bind_Return_inv in Hrun as ([] & w4 & Hcd & Hrun).
  unfold os_chdir in Hcd. inversion Hcd; subst w4; clear Hcd.
  apply bind_Return_inv in Hrun as (m1 & w5 & Hadd & Hrun).
  destruct (keeps_tar_add _ _ _ _ _ _ Hadd) as [Ed5 _].
  unfold tar_add in Hadd.
  apply bind_Return_inv in Hadd as (d & w0 & _ & Hadd).
  assert (m1 = [("descriptor.ovf", d)]) as -> by (by inversion Hadd). clear Hadd.
  apply bind_Return_inv in Hrun as (m2 & w6 & Hall & Hrun).
  destruct (tar_add_all_extends _ _ _ _ _ _ Hall) as ((more & ->) & Ed6 & _).
  unfold tar_close in Hrun. inversion Hrun; subst; clear Hrun. simpl.
  split.
  - rewrite Ed6, Ed5. simpl. congruence.
  - exists ([("descriptor.ovf", d)] ++ more)%list. split; [|by eauto].
    replace (resolve w file_name) with (resolve w2 file_name)
      by (unfold resolve; congruence).
    apply lookup_insert_eq.
Qed.

Lemma download_vapp_returns item file_name w v w' :
  download_vapp sys self item file_name w = Some (Return v, w') →
  let key := resolve w (OsPath.join "." (tmp_name sys)) in
  dirs w !! key = None
  ∧ dirs w' = <[key := []]> (dirs w)
  ∧ (∃ f, fs w' !! resolve w' file_name = Some f ∧ v = PyInt (st_size f))
  ∧ (OsPath.starts_with_slash (cwd w) = true →
     cwd w' = cwd w
     ∧ ∃ members,
         fs w' !! resolve w' file_name = Some (mk_file (tar_image sys members true))
         ∧ v = PyInt (len (tar_image sys members true))
         ∧ ∃ d rest, members = ("descriptor.ovf", d) :: rest).
Proof.
  intros Hrun key. unfold download_vapp in Hrun.
  apply bind_Return_inv in Hrun as (ovf & w1 & Hget & Hrun).
  assert (dirs w1 = dirs w ∧ cwd w1 = cwd w) as [Ed1 Ec1] by (by inversion Hget).
  apply bind_Return_inv in Hrun as (lnk & ? & Hl & Hrun). apply lift_inv in Hl as [_ ->].
  apply bind_Return_inv in Hrun as (cwd0 & wc & Hcwd & Hrun).
  unfold os_getcwd in Hcwd. inversion Hcwd; subst cwd0 wc; clear Hcwd.
  apply bind_Return_inv in Hrun as (t & w2 & Htmp & Hrun).
  apply attempt_inv in Htmp as (t0 & Htmp & [= ->]).
  unfold tempfile_mkdtemp in Htmp.
  replace (resolve w1 (OsPath.join "." (tmp_name sys))) with key in Htmp
    by (unfold key, resolve; congruence).
  destruct (dirs w1 !! key) eqn:Hfresh; inversion Htmp; subst t0 w2; clear Htmp;
    [by inversion Hrun|].
  apply bind_Return_inv in Hrun as (r & w3 & Htry & Hrun).
  apply attempt_inv in Htry as (r0 & Htry & [= ->]).
  apply bind_Return_inv in Hrun as ([] & w4 & Hcd & Hrun).
  unfold os_chdir in Hcd. inversion Hcd; subst w4; clear Hcd.
  apply bind_Return_inv in Hrun as (stat_info & w5 & Hstat & Hrun).
  unfold os_stat in Hstat.
  destruct (fs (set_cwd _ w3) !! _) as [f|] eqn:Hf; inversion Hstat; subst; clear Hstat.
  destruct r0 as [u|e]; inversion Hrun; subst; clear Hrun.
  destruct (download_vapp_try_returns _ _ _ _ _ _ _ Htry) as (Ed3 & members & Hfile & Hfirst).
  simpl in Ed3. rewrite Ed1 in Ed3, Hfresh.
  split; [done|]. split; [done|]. split; [eauto|].
  intros Habs.
  assert (Hback : resolve w3 (cwd w1) = cwd w).
  { unfold resolve, OsPath.join. rewrite Ec1, Habs. done. }
  simpl. split; [done|].
  assert (Hkey : resolve (set_cwd (resolve w3 (cwd w1)) w3) file_name
                 = resolve (set_dirs (insert key []) w1) file_name).
  { unfold resolve at 1 3. simpl. by rewrite Hback, Ec1. }
  rewrite Hkey in Hf |- *.
  change (fs (set_cwd (resolve w3 (cwd w1)) w3)) with (fs w3) in Hf.
  rewrite Hfile in Hf. inversion Hf; subst stat_info.
  exists members. split; [done|]. split; [done|exact Hfirst].
Qed.

(** With such a client the size check fails whatever the count: the
    declared size is a string of the descriptor, or absent. *)
Lemma download_files_rejects_counts tempdir uri f rest files w r w' :
  returns_counts (client self) →
  download_files self tempdir uri (f :: rest) files w = Some (r, w') →
  ∃ e, r = Raise e.
Proof.
  intros Hcounts Hrun. simpl in Hrun.
  apply bind_inv in Hrun as [(e & _ & ->)|(target & w1 & _ & Hrun)]; [eauto|].
  apply bind_inv in Hrun as [(e & _ & ->)|(u & w2 & _ & Hrun)]; [eauto|].
  apply bind_inv in Hrun as [(e & _ & ->)|(n & w3 & Hdl & Hrun)]; [eauto|].
  unfold client_download_from_uri in Hdl.
  destruct (download_from_uri _ _ _ _ _) as [d|e] eqn:E; [|discriminate].
  destruct (Hcounts _ _ _ _ _ E) as [k Hk]. inversion Hdl; subst. rewrite Hk in Hrun.
  match type of Hrun with
  | context [to_pyval ?size] => destruct size
  end; simpl in Hrun; inversion Hrun; eauto.
Qed.
End DownloadVapp.

Lemma counting_server_returns_counts : returns_counts (client (org_of counting_server)).
Proof. intros tr uri target size d [= <-]. by exists 3%Z. Qed.

(** C3.  A descriptor with one member of declared size 3 and a client
    that receives its three bytes and returns the count 3: the count, an
    integer, differs from the declared size, the string ["3"], and
    [download_catalog_item] raises.  The error is the one naming the
    member when the output path already holds a file; when it does not,
    the [os.stat] of the [finally] block raises in its place. *)
Theorem download_rejects_a_complete_member :
  len disk_bytes = 3%Z
  ∧ sf_size (source_file_of (file_ref "disk1.vmdk" "file1" "3")) = Some "3"
  ∧ py_ne (PyInt 3) (to_pyval (Some "3")) = true
  ∧ (∃ w', download_catalog_item one_disk_machine (org_of counting_server)
             "templates" "appliance" "out.ova" world_old_output
           = Some (Raise (Exception "download incomplete for file disk1.vmdk"), w'))
  ∧ (∃ w', download_catalog_item one_disk_machine (org_of counting_server)
             "templates" "appliance" "out.ova" world_empty
           = Some (Raise (FileNotFoundError "out.ova"), w')).
Proof.
  split; [reflexivity|]. split; [reflexivity|]. split; [reflexivity|].
  split; eexists; vm_compute; reflexivity.
Qed.

(** A download that completes: the workspace is still there on return. *)
Lemma download_leaves_workspace_behind :
  ∃ w', download_catalog_item one_disk_machine (org_of string_server)
          "templates" "appliance" "out.ova" world_empty = Some (Return (PyInt 10), w')
        ∧ dirs world_empty !! "/work/./tmp8x3k2q" = None
        ∧ dirs w' !! "/work/./tmp8x3k2q" = Some []
        ∧ cwd w' = "/work".
Proof. eexists. split; [vm_compute; reflexivity|]. repeat split. Qed.

(** C9, as amended.  On normal completion of the appliance-template
    branch the workspace is not removed: the directories on return are
    those at the call plus the directory [mkdtemp] made, which did not
    exist before. *)
Theorem download_vapp_retains_workspace :
  ∀ sys self item file_name w v w',
    download_vapp sys self item file_name w = Some (Return v, w') →
    let key := resolve w (OsPath.join "." (tmp_name sys)) in
    dirs w !! key = None ∧ dirs w' = <[key := []]> (dirs w).
Proof.
  intros sys self item file_name w v w' Hrun key.
  destruct (download_vapp_returns sys self item file_name w v w' Hrun) as (H1 & H2 & _).
  by split.
Qed.

Lemma download_vapp_retains_workspace_witness :
  let key := resolve world_empty (OsPath.join "." (tmp_name one_disk_machine)) in
  dirs world_empty !! key = None ∧ dirs world_downloaded = <[key := []]> (dirs world_empty).
Proof.
  apply (download_vapp_retains_workspace one_disk_machine (org_of string_server)
           (template_doc two_slots) "out.ova" world_empty (PyInt 10) world_downloaded).
  vm_compute. reflexivity.
Defined.

(** C10.  When the appliance-template branch returns, from an absolute
    working directory, the file at the output path is the closed archive,
    whose first member is [descriptor.ovf], and the value returned is the
    size [os.stat] reports for that file, not a count of bytes
    downloaded. *)
Theorem download_vapp_returns_archive_size :
  ∀ sys self item file_name w v w',
    download_vapp sys self item file_name w = Some (Return v, w') →
    OsPath.starts_with_slash (cwd w) = true →
    ∃ members,
      fs w' !! resolve w' file_name = Some (mk_file (tar_image sys members true))
      ∧ v = PyInt (st_size (mk_file (tar_image sys members true)))
      ∧ ∃ d rest, members = ("descriptor.ovf", d) :: rest.
Proof.
  intros sys self item file_name w v w' Hrun Habs.
  destruct (download_vapp_returns sys self item file_name w v w' Hrun) as (_ & _ & _ & H).
  destruct (H Habs) as (_ & members & Hf & Hv & Hfirst). by exists members.
Qed.

Lemma download_vapp_returns_archive_size_witness :
  ∃ members,
    fs world_downloaded !! resolve world_downloaded "out.ova"
      = Some (mk_file (tar_image one_disk_machine members true))
    ∧ PyInt 10 = PyInt (st_size (mk_file (tar_image one_disk_machine members true)))
    ∧ ∃ d rest, members = ("descriptor.ovf", d) :: rest.
Proof.
  apply (download_vapp_returns_archive_size one_disk_machine (org_of string_server)
           (template_doc two_slots) "out.ova" world_empty (PyInt 10) world_downloaded).
  - vm_compute. reflexivity.
  - reflexivity.
Defined.

(** In that run three bytes were downloaded for the one member; the value
    returned is the ten bytes of the archive. *)
Example download_value_is_not_the_byte_count :
  download_vapp one_disk_machine (org_of string_server) (template_doc two_slots) "out.ova"
    world_empty = Some (Return (PyInt 10), world_downloaded)
  ∧ len (dl_data {| dl_data := disk_bytes; dl_return := PyStr "3" |}) = 3%Z.
Proof. split; [vm_compute; reflexivity|reflexivity]. Qed.

(** * Further properties *)

Import MoreSamples.

(** ** upload_file, continued *)

Lemma logs_inj evs1 evs2 w : logs evs1 w = logs evs2 w → evs1 = evs2.
Proof.
  unfold logs. intros H. injection H as H. by apply app_inv_head in H.
Qed.

Lemma trace_logs evs w : trace (logs evs w) = (trace w ++ evs)%list.
Proof. reflexivity. Qed.

(** The fragments of a whole file are never empty and never longer than
    the chunk size. *)
Lemma upload_loop_fragment_sizes self href C cb size :
  accepts_fragments (client self) → (0 < C)%Z →
  ∀ fuel f transferred w,
    len f = (size - transferred)%Z →
    (length f < fuel)%nat →
    ∃ evs,
      upload_loop self fuel href C cb size f transferred w = Some (Return size, logs evs w)
      ∧ Forall (λ d, 0 < len d.1 ≤ C)%Z (fragments evs).
Proof.
  intros Hacc HC. induction fuel as [|fuel IH]; intros f transferred w Hlen Hfuel; [lia|].
  rewrite upload_loop_unfold. destruct f as [|b f'].
  - change (len []) with 0%Z in Hlen.
    replace (transferred <? size)%Z with false by (symmetry; apply Z.ltb_ge; lia).
    exists []. rewrite logs_nil. unfold ret. replace transferred with size by lia.
    split; [reflexivity|constructor].
  - remember (b :: f') as f eqn:Ef.
    assert (HL : (0 < len f)%Z) by (subst f; unfold len; simpl; lia).
    replace (transferred <? size)%Z with true by (symmetry; apply Z.ltb_lt; lia).
    unfold f_read. replace (C <? 0)%Z with false by (symmetry; apply Z.ltb_ge; lia).
    remember (take (Z.to_nat C) f) as my eqn:Emy.
    remember (drop (Z.to_nat C) f) as rest eqn:Erest.
    assert (Hmy : len my = Z.min C (len f)).
    { subst my. unfold len. rewrite length_take. lia. }
    assert (Hrest : len rest = (len f - len my)%Z).
    { subst my rest. unfold len. rewrite length_drop, length_take. lia. }
    replace (len my <=? C)%Z with true by (symmetry; apply Z.leb_le; lia).
    destruct (IH rest (transferred + len my)%Z
                (if cb then log (EvCallback (transferred + len my) size)
                                (log (EvUploadFragment href my (range_str transferred (len my) size)) w)
                 else log (EvUploadFragment href my (range_str transferred (len my) size)) w))
      as (evs & Hrun & Hall).
    { lia. }
    { unfold len in *. lia. }
    exists (EvUploadFragment href my (range_str transferred (len my) size)
            :: (if cb then [EvCallback (transferred + len my) size] else []) ++ evs)%list.
    split.
    + unfold bind at 1. unfold client_upload_fragment. rewrite Hacc.
      unfold bind at 1. destruct cb; unfold call_back, ret; rewrite Hrun; f_equal; f_equal;
        rewrite ?logs_log; reflexivity.
    + destruct cb; simpl; (constructor; [simpl; lia|exact Hall]).
Qed.

(** X13.  For a file of [S] bytes and [C > 0], [upload_file] submits
    ceil(S/C) fragments, each of 1 to [C] bytes, whose bytes in order are
    the content of the file. *)
Theorem upload_file_sends_the_content_in_chunks :
  ∀ (self : Org) (w : world) (file_name : string) (href : option string)
    (C : Z) (callback : bool) (f : file) (fuel : nat),
    fs w !! resolve w file_name = Some f →
    len (content f) = st_size f →
    (0 < C)%Z →
    accepts_fragments (client self) →
    (Z.to_nat (st_size f) < fuel)%nat →
    ∃ evs,
      upload_file self fuel file_name href C callback w
        = Some (Return (st_size f), logs evs w)
      ∧ concat (map fst (fragments evs)) = content f
      ∧ Z.of_nat (length (fragments evs)) = ((st_size f + C - 1) / C)%Z
      ∧ Forall (λ d, 0 < len d.1 ≤ C)%Z (fragments evs).
Proof.
  intros self w file_name href C cb f fuel Hf Hlen HC Hacc Hfuel.
  destruct (upload_file_whole self file_name href C cb w f fuel Hacc HC Hf Hlen Hfuel)
    as (evs & Hrun & Hcat & Hcnt & _).
  exists evs. split; [exact Hrun|]. split; [exact Hcat|]. split; [exact Hcnt|].
  rewrite (upload_file_found _ _ _ _ _ _ _ f Hf) in Hrun.
  destruct (upload_loop_fragment_sizes self href C cb (st_size f) Hacc HC fuel (content f) 0%Z w)
    as (evs' & Hrun' & Hall).
  { lia. }
  { unfold len in Hlen. lia. }
  rewrite Hrun in Hrun'. injection Hrun' as Hw. apply app_inv_head in Hw. by subst evs'.
Qed.

Lemma upload_file_sends_the_content_in_chunks_witness :
  ∃ evs,
    upload_file (org_of plain_server) 5 "disk.img" (Some "https://vcd/transfer/x1/disk.img")
      3 false world_four = Some (Return (st_size (mk_file four_bytes)), logs evs world_four)
    ∧ concat (map fst (fragments evs)) = content (mk_file four_bytes)
    ∧ Z.of_nat (length (fragments evs)) = ((st_size (mk_file four_bytes) + 3 - 1) / 3)%Z
    ∧ Forall (λ d, 0 < len d.1 ≤ 3)%Z (fragments evs).
Proof.
  apply (upload_file_sends_the_content_in_chunks (org_of plain_server) world_four "disk.img"
           (Some "https://vcd/transfer/x1/disk.img") 3 false (mk_file four_bytes) 5).
  - reflexivity.
  - reflexivity.
  - lia.
  - exact plain_server_accepts.
  - simpl. lia.
Defined.

(** X14.  For a file of size 0 [upload_file] returns 0 without
    submitting a fragment or calling back, whatever the chunk size and the
    client. *)
Theorem upload_file_of_an_empty_file_sends_nothing :
  ∀ (self : Org) (w : world) (file_name : string) (href : option string)
    (C : Z) (callback : bool) (f : file) (fuel : nat),
    fs w !! resolve w file_name = Some f →
    (st_size f <= 0)%Z →
    upload_file self (S fuel) file_name href C callback w = Some (Return 0%Z, w).
Proof.
  intros self w file_name href C cb f fuel Hf Hsize.
  rewrite (upload_file_found _ _ _ _ _ _ _ f Hf), upload_loop_unfold.
  replace (0 <? st_size f)%Z with false by (symmetry; apply Z.ltb_ge; lia). reflexivity.
Qed.

Lemma upload_file_of_an_empty_file_sends_nothing_witness :
  upload_file (org_of rejecting_server) 1 "empty.img" (Some "https://vcd/transfer/x1/empty.img")
    (-1) true world_empty_file = Some (Return 0%Z, world_empty_file).
Proof.
  apply (upload_file_of_an_empty_file_sends_nothing (org_of rejecting_server) world_empty_file
           "empty.img" (Some "https://vcd/transfer/x1/empty.img") (-1) true (mk_file []) 0).
  - reflexivity.
  - simpl. lia.
Defined.



Lemma upload_loop_nonpositive_chunk self href C cb size :
  accepts_fragments (client self) → (C <= 0)%Z →
  ∀ fuel f t w, (t < size)%Z → upload_loop self fuel href C cb size f t w = None.
Proof.
  intros Hacc HC. induction fuel as [|fuel IH]; intros f t w Ht; [reflexivity|].
  rewrite upload_loop_unfold.
  replace (t <? size)%Z with true by (symmetry; apply Z.ltb_lt; lia).
  unfold f_read. destruct (C <? 0)%Z eqn:Eneg.
  - apply Z.ltb_lt in Eneg.
    replace (len f <=? C)%Z with false by (symmetry; apply Z.leb_gt; unfold len; lia).
    by apply IH.
  - apply Z.ltb_ge in Eneg. assert (C = 0%Z) as -> by lia. simpl.
    change (len (take 0 f)) with 0%Z. rewrite Z.add_0_r. simpl.
    unfold bind at 1. unfold client_upload_fragment. rewrite Hacc.
    unfold bind at 1. destruct cb; unfold call_back, ret; by apply IH.
Qed.

(** X16.  With a chunk size of 0 or less and a file of positive size
    the loop of [upload_file] does not end: no byte is ever transferred. *)
Theorem upload_file_with_nonpositive_chunk_never_returns :
  ∀ (self : Org) (w : world) (file_name : string) (href : option string)
    (C : Z) (callback : bool) (f : file),
    fs w !! resolve w file_name = Some f →
    (0 < st_size f)%Z →
    (C <= 0)%Z →
    accepts_fragments (client self) →
    ∀ fuel, upload_file self fuel file_name href C callback w = None.
Proof.
  intros self w file_name href C cb f Hf Hsize HC Hacc fuel.
  rewrite (upload_file_found _ _ _ _ _ _ _ f Hf).
  by apply upload_loop_nonpositive_chunk.
Qed.

Lemma upload_file_with_nonpositive_chunk_never_returns_witness :
  (∀ fuel, upload_file (org_of plain_server) fuel "disk.img" None 0 true world_four = None)
  ∧ (∀ fuel, upload_file (org_of plain_server) fuel "disk.img" None (-1) true world_four = None).
Proof.
  split.
  - apply (upload_file_with_nonpositive_chunk_never_returns (org_of plain_server) world_four
             "disk.img" None 0 true (mk_file four_bytes)).
    + reflexivity.
    + simpl. lia.
    + lia.
    + exact plain_server_accepts.
  - apply (upload_file_with_nonpositive_chunk_never_returns (org_of plain_server) world_four
             "disk.img" None (-1) true (mk_file four_bytes)).
    + reflexivity.
    + simpl. lia.
    + lia.
    + exact plain_server_accepts.
Defined.

Lemma upload_loop_raises self href C cb size :
  ∀ fuel f t w e w',
    upload_loop self fuel href C cb size f t w = Some (Raise e, w') →
    ∃ evs d r,
      w' = logs (evs ++ [EvUploadFragment href d r]) w
      ∧ upload_fragment (client self) (trace w ++ evs) href d r = Raise e
      ∧ (callbacks evs = [] ∨ cb = true).
Proof.
  induction fuel as [|fuel IH]; intros f t w e w' Hrun; [discriminate|].
  rewrite upload_loop_unfold in Hrun.
  destruct (t <? size)%Z; [|discriminate].
  destruct (f_read C f) as [my rest].
  destruct (len my <=? C)%Z.
  - apply bind_inv in Hrun as [(e0 & Hfrag & [= ->])|([] & w1 & Hfrag & Hrun)].
    + unfold client_upload_fragment in Hfrag. injection Hfrag as Hraise Hw.
      exists [], my, (range_str t (len my) size). simpl. rewrite app_nil_r.
      split; [by rewrite <- Hw|]. split; [done|by left].
    + unfold client_upload_fragment in Hfrag. injection Hfrag as _ Hw. subst w1.
      apply bind_inv in Hrun as [(e0 & Hcb & _)|([] & w2 & Hcb & Hrun)].
      { destruct cb; discriminate. }
      assert (Hw2 : w2 = logs (EvUploadFragment href my (range_str t (len my) size)
                               :: if cb then [EvCallback (t + len my) size] else []) w).
      { destruct cb; unfold call_back, ret in Hcb; injection Hcb as <-.
        - change (log ?b (log ?a w)) with (logs [b] (logs [a] w)).
          by rewrite logs_logs.
        - reflexivity. }
      destruct (IH _ _ _ _ _ Hrun) as (evs & d & r & -> & Hraise & Hcbs).
      exists ((EvUploadFragment href my (range_str t (len my) size)
               :: if cb then [EvCallback (t + len my) size] else []) ++ evs)%list, d, r.
      subst w2. rewrite logs_logs, trace_logs in *. rewrite <- !app_assoc in *.
      split; [reflexivity|]. split; [exact Hraise|].
      destruct cb; [by right|]. destruct Hcbs as [Hcbs|]; [|done]. left. exact Hcbs.
  - destruct (IH _ _ _ _ _ Hrun) as (evs & d & r & -> & Hraise & Hcbs). eauto 10.
Qed.




(** ** Catalog lookups *)

Lemma find_absent {A} (p : A → bool) (l : list A) :
  (∀ x, In x l → p x = false) → List.find p l = None.
Proof.
  induction l as [|a l IH]; intros H; [reflexivity|]. simpl.
  rewrite (H a) by (by left). apply IH. intros x Hx. apply H. by right.
Qed.

Lemma find_first {A} (p : A → bool) (before after : list A) (a : A) :
  (∀ x, In x before → p x = false) → p a = true →
  List.find p (before ++ a :: after) = Some a.
Proof.
  induction before as [|b before IH]; intros H Ha; simpl.
  - by rewrite Ha.
  - rewrite (H b) by (by left). apply IH; [|done]. intros x Hx. apply H. by right.
Qed.

(** What [get_catalog] does, request by request. *)
Lemma get_catalog_run self name w :
  get_catalog self name w =
  match get_resource (client self) (trace w) (Some (endpoint self)) with
  | Raise e => Some (Raise e, logs [EvGet (Some (endpoint self))] w)
  | Return org =>
      match List.find (λ l, String.eqb name (link_name l))
                      (get_links (client self) org DOWN (value (client self) CATALOG)) with
      | Some l =>
          Some (get_resource (client self) (trace w ++ [EvGet (Some (endpoint self))])
                  (Some (link_href l)),
                logs [EvGet (Some (endpoint self)); EvGet (Some (link_href l))] w)
      | None => Some (Raise (Exception "Catalog not found."), logs [EvGet (Some (endpoint self))] w)
      end
  end.
Proof.
  unfold get_catalog, bind, client_get_resource. simpl.
  destruct (get_resource _ _ _) as [org|e]; [|reflexivity].
  destruct (List.find _ _) as [l|]; [|reflexivity].
  unfold logs, log. simpl. by rewrite <- app_assoc.
Qed.

Lemma get_catalog_gets self name w r w' :
  get_catalog self name w = Some (r, w') →
  ∃ gets, w' = logs gets w ∧ Forall (λ ev, is_get ev = true) gets.
Proof.
  rewrite get_catalog_run. intros H.
  destruct (get_resource _ _ _) as [org|e].
  - destruct (List.find _ _) as [l|]; injection H as _ <-; eexists; split; try reflexivity;
      repeat constructor.
  - injection H as _ <-. eexists; split; [reflexivity|]. repeat constructor.
Qed.

(** X3.  When the organisation is fetched and none of its catalog links
    has the name, [get_catalog] raises [Exception('Catalog not found.')]
    after that one request. *)
Theorem get_catalog_of_an_unknown_name_raises :
  ∀ (self : Org) (name : string) (w : world) (org : xml),
    get_resource (client self) (trace w) (Some (endpoint self)) = Return org →
    (∀ l, In l (get_links (client self) org DOWN (value (client self) CATALOG)) →
          link_name l ≠ name) →
    get_catalog self name w
      = Some (Raise (Exception "Catalog not found."), logs [EvGet (Some (endpoint self))] w).
Proof.
  intros self name w org Horg Hnone. rewrite get_catalog_run, Horg.
  rewrite find_absent; [reflexivity|].
  intros l Hl. apply String.eqb_neq. intros ->. by apply (Hnone l).
Qed.

Lemma get_catalog_of_an_unknown_name_raises_witness :
  get_catalog (org_of plain_server) "no such catalog" world_empty
    = Some (Raise (Exception "Catalog not found."),
            logs [EvGet (Some (endpoint (org_of plain_server)))] world_empty).
Proof.
  apply (get_catalog_of_an_unknown_name_raises (org_of plain_server) "no such catalog"
           world_empty org_doc).
  - reflexivity.
  - intros l [<-|[]]. discriminate.
Defined.

(** X4.  [get_catalog] requests the href of the first link that has the
    name, whatever links follow it, and returns or raises as that request
    does. *)
Theorem get_catalog_takes_the_first_link_of_the_name :
  ∀ (self : Org) (name : string) (w : world) (org : xml) (before after : list link) (l : link),
    get_resource (client self) (trace w) (Some (endpoint self)) = Return org →
    get_links (client self) org DOWN (value (client self) CATALOG) = (before ++ l :: after)%list →
    (∀ l', In l' before → link_name l' ≠ name) →
    link_name l = name →
    get_catalog self name w
      = Some (get_resource (client self) (trace w ++ [EvGet (Some (endpoint self))])
                (Some (link_href l)),
              logs [EvGet (Some (endpoint self)); EvGet (Some (link_href l))] w).
Proof.
  intros self name w org before after l Horg Hlinks Hbefore Hl.
  rewrite get_catalog_run, Horg, Hlinks.
  rewrite (find_first _ before after l); [reflexivity| |].
  - intros l' Hl'. apply String.eqb_neq. intros ->. by apply (Hbefore l').
  - apply String.eqb_eq. done.
Qed.

Lemma get_catalog_takes_the_first_link_of_the_name_witness :
  get_catalog (org_of twin_server) "templates" world_empty
    = Some (get_resource (client (org_of twin_server))
              (trace world_empty ++ [EvGet (Some (endpoint (org_of twin_server)))])
              (Some catalog_href),
            logs [EvGet (Some (endpoint (org_of twin_server))); EvGet (Some catalog_href)]
              world_empty).
Proof.
  apply (get_catalog_takes_the_first_link_of_the_name (org_of twin_server) "templates"
           world_empty org_doc
           [{| link_name := "media"; link_href := "https://vcd/api/catalog/c0" |}]
           [{| link_name := "templates"; link_href := "https://vcd/api/catalog/c2" |}]
           {| link_name := "templates"; link_href := catalog_href |}).
  - reflexivity.
  - reflexivity.
  - intros l' [<-|[]]. discriminate.
  - reflexivity.
Defined.

(** ** list_catalog_items and get_catalog_item *)

Lemma find_item_listed (item_name : string) (items : list xml) :
  In (Some item_name) (map (get "name") items) →
  ∃ i, List.find (λ i, option_string_eqb (get "name" i) (Some item_name)) items = Some i.
Proof.
  induction items as [|i items IH]; intros Hin; [destruct Hin|]. simpl.
  destruct (option_string_eqb (get "name" i) (Some item_name)) eqn:E; [eauto|].
  apply IH. destruct Hin as [Hi|Hin]; [|done].
  rewrite Hi in E. simpl in E. by rewrite String.eqb_refl in E.
Qed.

Lemma find_item_unlisted (item_name : string) (items : list xml) :
  ¬ In (Some item_name) (map (get "name") items) →
  List.find (λ i, option_string_eqb (get "name" i) (Some item_name)) items = None.
Proof.
  intros Hnot. apply find_absent. intros i Hi.
  destruct (get "name" i) as [n|] eqn:E; [|reflexivity]. simpl.
  apply String.eqb_neq. intros ->. apply Hnot.
  apply in_map_iff. exists i. by split.
Qed.



(** ** share_catalog *)

(** X5.  [share_catalog] makes at most one POST, as its last call, to the
    admin form of the publish action of the catalog it found, with the
    [IsPublished] text asked for; when the lookup fails or the catalog has
    no href it raises and posts nothing. *)
Theorem share_catalog_posts_once_and_only_for_a_catalog_found :
  ∀ (self : Org) (publish_catalog_params name : string) (share : bool)
    (w : world) (r : outcome xml) (w' : world),
    share_catalog self publish_catalog_params name share w = Some (r, w') →
    ∃ gets,
      Forall (λ ev, is_get ev = true) gets
      ∧ ((∃ e, r = Raise e ∧ w' = logs gets w)
         ∨ (∃ catalog w1 h,
              get_catalog self name w = Some (Return catalog, w1)
              ∧ get "href" catalog = Some h
              ∧ w' = logs (gets ++ [EvPost (str_replace "/api/catalog/" "/api/admin/catalog/"
                                              (h +:+ "/action/publish"))
                                      (Some (publish_params share))
                                      (Some publish_catalog_params)]) w)).
Proof.
  intros self pt name share w r w' Hrun. unfold share_catalog in Hrun.
  apply bind_inv in Hrun as [(e & Hcat & ->)|(catalog & w1 & Hcat & Hrun)].
  { destruct (get_catalog_gets _ _ _ _ _ Hcat) as (gets & -> & Hgets).
    exists gets. split; [done|]. left. eauto. }
  destruct (get_catalog_gets _ _ _ _ _ Hcat) as (gets & Hw1 & Hgets).
  exists gets. split; [done|].
  apply bind_inv in Hrun as [(e & Hadd & ->)|(href & w2 & Hadd & Hrun)].
  { unfold str_add in Hadd. destruct (get "href" catalog); [discriminate|].
    injection Hadd as _ <-. left. eauto. }
  unfold str_add in Hadd. destruct (get "href" catalog) as [h|] eqn:Eh; [|discriminate].
  injection Hadd as <- <-. right. exists catalog, w1, h. split; [done|]. split; [done|].
  unfold client_post_resource in Hrun. injection Hrun as _ <-. subst w1.
  change (log ?ev (logs gets w)) with (logs [ev] (logs gets w)). by rewrite logs_logs.
Qed.

Lemma share_catalog_posts_once_and_only_for_a_catalog_found_witness :
  ∃ gets,
    Forall (λ ev, is_get ev = true) gets
    ∧ ((∃ e, Return task_doc = Raise e
             ∧ logs [EvGet (Some org_href); EvGet (Some catalog_href);
                     EvPost "https://vcd/api/admin/catalog/c1/action/publish"
                       (Some (publish_params false))
                       (Some "application/vnd.vmware.admin.publishCatalogParams+xml")]
                  world_empty = logs gets world_empty)
       ∨ (∃ catalog w1 h,
            get_catalog (org_of plain_server) "templates" world_empty = Some (Return catalog, w1)
            ∧ get "href" catalog = Some h
            ∧ logs [EvGet (Some org_href); EvGet (Some catalog_href);
                    EvPost "https://vcd/api/admin/catalog/c1/action/publish"
                      (Some (publish_params false))
                      (Some "application/vnd.vmware.admin.publishCatalogParams+xml")]
                 world_empty
              = logs (gets ++ [EvPost (str_replace "/api/catalog/" "/api/admin/catalog/"
                                         (h +:+ "/action/publish"))
                                 (Some (publish_params false))
                                 (Some "application/vnd.vmware.admin.publishCatalogParams+xml")])
                  world_empty)).
Proof.
  apply (share_catalog_posts_once_and_only_for_a_catalog_found (org_of plain_server)
           "application/vnd.vmware.admin.publishCatalogParams+xml" "templates" false
           world_empty (Return task_doc)).
  vm_compute. reflexivity.
Defined.



(** ** upload_media *)



(** Whatever [upload_file] records goes to the link it was given. *)
Lemma upload_loop_events self href C cb size :
  ∀ fuel f t w r w',
    upload_loop self fuel href C cb size f t w = Some (r, w') →
    ∃ evs,
      w' = logs evs w
      ∧ Forall (λ ev, match ev with
                      | EvUploadFragment href' _ _ => href' = href
                      | EvCallback _ _ => cb = true
                      | _ => False
                      end) evs.
Proof.
  induction fuel as [|fuel IH]; intros f t w r w' Hrun; [discriminate|].
  rewrite upload_loop_unfold in Hrun.
  destruct (t <? size)%Z.
  - destruct (f_read C f) as [my rest]. destruct (len my <=? C)%Z; [|eauto].
    apply bind_inv in Hrun as [(e0 & Hfrag & _)|([] & w1 & Hfrag & Hrun)].
    + unfold client_upload_fragment in Hfrag. injection Hfrag as _ <-.
      eexists [_]. split; [reflexivity|]. by repeat constructor.
    + unfold client_upload_fragment in Hfrag. injection Hfrag as _ <-.
      apply bind_inv in Hrun as [(e0 & Hcb & _)|([] & w2 & Hcb & Hrun)].
      { destruct cb; discriminate. }
      destruct (IH _ _ _ _ _ Hrun) as (evs & -> & Hall).
      destruct cb; unfold call_back, ret in Hcb; injection Hcb as <-.
      * change (log ?b (log ?a w)) with (logs [b] (logs [a] w)).
        rewrite !logs_logs. eexists. split; [reflexivity|]. by repeat constructor.
      * rewrite logs_log. eexists. split; [reflexivity|]. by constructor.
  - injection Hrun as _ <-. exists []. by rewrite logs_nil.
Qed.

(** X8.  When the catalog is found and the server answers with an item
    whose entity has a file link, [upload_media] of a file of [S] bytes
    posts a [Media] element that declares the size [S], sends the bytes of
    the file, and nothing else, to that link, and returns [S]. *)
Theorem upload_media_declares_and_returns_the_file_size :
  ∀ (self : Org) (fuel : nat) (catalog_name file_name : string) (item_name : option string)
    (description : string) (C : Z) (callback : bool) (w : world) (f : file)
    (catalog : xml) (w1 : world) (h : string) (catalog_item e entity files fl lnk : xml),
    let name := match item_name with None => OsPath.basename file_name | Some n => n end in
    let post := EvPost (h +:+ "/action/upload")
                  (Some (media_params name (st_size f) description))
                  (Some (value (client self) MEDIA)) in
    fs w !! resolve w file_name = Some f →
    len (content f) = st_size f →
    (0 < C)%Z →
    accepts_fragments (client self) →
    (Z.to_nat (st_size f) < fuel)%nat →
    get_catalog self catalog_name w = Some (Return catalog, w1) →
    get "href" catalog = Some h →
    post_resource (client self) (trace w1) (h +:+ "/action/upload")
      (Some (media_params name (st_size f) description))
      (Some (value (client self) MEDIA)) = Return catalog_item →
    child "Entity" catalog_item = Return e →
    get_resource (client self) (trace w1 ++ [post]) (get "href" e) = Return entity →
    child "Files" entity = Return files →
    child "File" files = Return fl →
    child "Link" fl = Return lnk →
    ∃ evs,
      upload_media self fuel catalog_name file_name item_name description C callback w
        = Some (Return (st_size f), logs (post :: EvGet (get "href" e) :: evs) w1)
      ∧ concat (map fst (fragments evs)) = content f
      ∧ Forall (λ ev, match ev with
                      | EvUploadFragment href _ _ => href = get "href" lnk
                      | EvCallback _ _ => callback = true
                      | _ => False
                      end) evs.
Proof.
  intros self fuel cn fn item descr C cb w f catalog w1 h catalog_item e entity files fl lnk
    name post Hf Hlen HC Hacc Hfuel Hcat Hh Hpost He Hentity Hfiles Hfl Hlnk.
  destruct (get_catalog_gets _ _ _ _ _ Hcat) as (gets & Hw1 & _).
  assert (Hf2 : fs (logs [post; EvGet (get "href" e)] w1)
                !! resolve (logs [post; EvGet (get "href" e)] w1) fn = Some f)
    by (subst w1; exact Hf).
  destruct (upload_file_whole self fn (get "href" lnk) C cb _ f fuel Hacc HC Hf2 Hlen Hfuel)
    as (evs & Hrun & Hcat' & _).
  rewrite logs_logs in Hrun.
  exists evs. split; [|split; [exact Hcat'|]].
  - unfold upload_media. unfold bind at 1. unfold os_stat. rewrite Hf.
    unfold bind at 1. rewrite Hcat.
    unfold bind at 1. unfold str_add. rewrite Hh. unfold ret at 1.
    unfold bind at 1. unfold client_post_resource. fold name. rewrite Hpost.
    unfold bind at 1. unfold lift at 1. rewrite He.
    unfold bind at 1. unfold client_get_resource.
    change (trace (log ?ev w1)) with (trace w1 ++ [ev])%list. fold post. rewrite Hentity.
    unfold bind at 1. unfold lift at 1. rewrite Hfiles.
    unfold bind at 1. unfold lift at 1. rewrite Hfl.
    unfold bind at 1. unfold lift at 1. rewrite Hlnk.
    change (log (EvGet (get "href" e)) (log post w1))
      with (logs [EvGet (get "href" e)] (logs [post] w1)).
    rewrite logs_logs. exact Hrun.
  - rewrite (upload_file_found _ _ _ _ _ _ _ f Hf2) in Hrun.
    destruct (upload_loop_events _ _ _ _ _ _ _ _ _ _ _ Hrun) as (evs' & Hw & Hall).
    rewrite logs_logs in Hw. injection Hw as Hw. apply app_inv_head in Hw.
    injection Hw as <-. exact Hall.
Qed.

Lemma upload_media_declares_and_returns_the_file_size_witness :
  ∃ evs,
    upload_media (org_of plain_server) 5 "templates" "disk.img" None "an image" 3 true world_four
      = Some (Return (st_size (mk_file four_bytes)),
              logs (EvPost (catalog_href +:+ "/action/upload")
                      (Some (media_params "disk.img" (st_size (mk_file four_bytes)) "an image"))
                      (Some (value (client (org_of plain_server)) MEDIA))
                    :: EvGet (Some template_href) :: evs)
                (logs [EvGet (Some org_href); EvGet (Some catalog_href)] world_four))
    ∧ concat (map fst (fragments evs)) = content (mk_file four_bytes)
    ∧ Forall (λ ev, match ev with
                    | EvUploadFragment href _ _ =>
                        href = Some "https://vcd/transfer/x1/descriptor.ovf"
                    | EvCallback _ _ => true = true
                    | _ => False
                    end) evs.
Proof.
  apply (upload_media_declares_and_returns_the_file_size (org_of plain_server) 5 "templates"
           "disk.img" None "an image" 3 true world_four (mk_file four_bytes)
           catalog_doc (logs [EvGet (Some org_href); EvGet (Some catalog_href)] world_four)
           catalog_href catalog_item_doc
           (Elem "Entity" [("type", media_types VAPP_TEMPLATE); ("href", template_href)] "" [])
           (template_doc two_slots)
           (Elem "Files" [] "" two_slots)
           (slot "descriptor.ovf" "https://vcd/transfer/x1/descriptor.ovf")
           (Elem "Link" [("rel", "upload:default");
                         ("href", "https://vcd/transfer/x1/descriptor.ovf")] "" [])).
  - reflexivity.
  - reflexivity.
  - lia.
  - exact plain_server_accepts.
  - simpl. lia.
  - vm_compute. reflexivity.
  - reflexivity.
  - reflexivity.
  - reflexivity.
  - reflexivity.
  - reflexivity.
  - reflexivity.
  - reflexivity.
Defined.



(** ** get_vdc *)

(** X21.  With the organisation already at hand, [get_vdc] of a name no
    link has returns [None]: no error is raised and no request is made. *)
Theorem get_vdc_of_an_unknown_name_returns_none :
  ∀ (self : Org) (vdc name : string) (org : xml) (w : world),
    (∀ l, In l (get_links (client self) org DOWN vdc) → link_name l ≠ name) →
    get_vdc self vdc (Some org) name w = Some (Return (Some org, Return None), w).
Proof.
  intros self vdc name org w Hnone. unfold get_vdc, bind, ret.
  rewrite find_absent; [reflexivity|].
  intros l Hl. apply String.eqb_neq. intros ->. by apply (Hnone l).
Qed.

Lemma get_vdc_of_an_unknown_name_returns_none_witness :
  get_vdc (org_of plain_server) "application/vnd.vmware.vcloud.vdc+xml" (Some org_doc)
    "no such vdc" world_empty = Some (Return (Some org_doc, Return None), world_empty).
Proof.
  apply (get_vdc_of_an_unknown_name_returns_none (org_of plain_server)
           "application/vnd.vmware.vcloud.vdc+xml" "no such vdc" org_doc world_empty).
  intros l [<-|[]]. discriminate.
Defined.

(** X22.  A [get_vdc] that fetched the organisation keeps it: later
    calls with it make no request for the organisation, only the one for
    the link of the name, if there is one. *)
Theorem get_vdc_fetches_the_organisation_once :
  ∀ (self : Org) (vdc name : string) (w : world)
    (cache : option xml) (r : outcome (option xml)) (w1 : world),
    get_vdc self vdc None name w = Some (Return (cache, r), w1) →
    ∃ org,
        get_resource (client self) (trace w) (Some (endpoint self)) = Return org
        ∧ cache = Some org
        ∧ ∀ name2 w2,
            ∃ r2 w3,
              get_vdc self vdc cache name2 w2 = Some (Return (cache, r2), w3)
              ∧ (w3 = w2
                 ∨ ∃ l, In l (get_links (client self) org DOWN vdc)
                        ∧ link_name l = name2
                        ∧ w3 = log (EvGet (Some (link_href l))) w2).
Proof.
  intros self vdc name w cache r w1 Hrun. unfold get_vdc in Hrun.
  apply bind_Return_inv in Hrun as (org & w0 & Hget & Hrun).
  unfold client_get_resource in Hget. injection Hget as Hget _.
  assert (cache = Some org) as ->.
  { destruct (List.find _ _).
    - apply bind_Return_inv in Hrun as (? & ? & _ & Hrun). by injection Hrun as <- _ _.
    - by injection Hrun as <- _ _. }
  exists org. split; [done|]. split; [done|].
  clear Hrun. intros name2 w2. unfold get_vdc, bind, ret, attempt, client_get_resource.
  destruct (List.find _ _) as [l|] eqn:Efind.
  - eexists _, _. split; [reflexivity|]. right. exists l.
    apply find_some in Efind as [Hin Heq]. apply String.eqb_eq in Heq. done.
  - eexists _, _. split; [reflexivity|]. by left.
Qed.

Lemma get_vdc_fetches_the_organisation_once_witness :
  ∃ org,
      get_resource (client (org_of plain_server)) (trace world_empty)
        (Some (endpoint (org_of plain_server))) = Return org
      ∧ Some org_doc = Some org
      ∧ ∀ name2 w2,
          ∃ r2 w3,
            get_vdc (org_of plain_server) "application/vnd.vmware.vcloud.vdc+xml"
              (Some org_doc) name2 w2 = Some (Return (Some org_doc, r2), w3)
            ∧ (w3 = w2
               ∨ ∃ l, In l (get_links (client (org_of plain_server)) org DOWN
                              "application/vnd.vmware.vcloud.vdc+xml")
                      ∧ link_name l = name2
                      ∧ w3 = log (EvGet (Some (link_href l))) w2).
Proof.
  apply (get_vdc_fetches_the_organisation_once (org_of plain_server)
           "application/vnd.vmware.vcloud.vdc+xml" "no such vdc" world_empty
           (Some org_doc) (Return None) (log (EvGet (Some org_href)) world_empty)).
  vm_compute. reflexivity.
Defined.

(** ** Org.__init__ *)

Lemma replace_from_absent old new s :
  occurs old s = false → replace_from old new s 0 = s.
Proof.
  induction s as [|c s IH]; intros H; [reflexivity|].
  change (occurs old (String c s))
    with (String.prefix old (String c s) || occurs old s) in H.
  apply orb_false_iff in H as [Hp Hs].
  cbn [replace_from]. rewrite Hp. f_equal. by apply IH.
Qed.

(** X2.  When [/api/org/] does not occur in the href, as in an
    admin href, [endpoint_admin] is the [endpoint] itself. *)
Theorem org_init_keeps_an_endpoint_without_the_org_path :
  ∀ (c : Client) (org_href : option string) (is_admin : bool) (org_resource : option xml)
    (e : string),
    match org_resource with Some r => get "href" r | None => org_href end = Some e →
    occurs "/api/org/" e = false →
    Org_init c org_href is_admin org_resource
      = Return ({| client := c; endpoint := e; endpoint_admin := e; is_admin := is_admin |},
                org_resource).
Proof.
  intros c org_href is_admin org_resource e He Habsent. unfold Org_init. rewrite He.
  unfold str_replace. by rewrite replace_from_absent.
Qed.

Lemma org_init_keeps_an_endpoint_without_the_org_path_witness :
  Org_init plain_server (Some "https://vcd/api/org/o1") true
    (Some (Elem "AdminOrg" [("href", "https://vcd/api/admin/org/o1")] "" []))
  = Return ({| client := plain_server; endpoint := "https://vcd/api/admin/org/o1";
               endpoint_admin := "https://vcd/api/admin/org/o1"; is_admin := true |},
            Some (Elem "AdminOrg" [("href", "https://vcd/api/admin/org/o1")] "" [])).
Proof.
  apply (org_init_keeps_an_endpoint_without_the_org_path plain_server
           (Some "https://vcd/api/org/o1") true
           (Some (Elem "AdminOrg" [("href", "https://vcd/api/admin/org/o1")] "" []))
           "https://vcd/api/admin/org/o1").
  - reflexivity.
  - reflexivity.
Defined.


(** ** download_catalog_item, continued *)

Lemma keeps_task_monitor_wait_for_success self t a b :
  keeps_dirs (task_monitor_wait_for_success self t a b).
Proof. keeps_prim. Qed.

Lemma keeps_client_get_linked_resource self r rel mt :
  keeps_dirs (client_get_linked_resource self r rel mt).
Proof. keeps_prim. Qed.

Lemma keeps_get_catalog_item self name item_name : keeps_dirs (get_catalog_item self name item_name).
Proof. unfold get_catalog_item. pose proof (keeps_get_catalog self). keeps. Qed.

Lemma keeps_download_media self item file_name : keeps_dirs (download_media self item file_name).
Proof. unfold download_media. keeps. Qed.

Lemma keeps_table_of_keeps_dirs {A} (m : M A) : keeps_dirs m → keeps_table m.
Proof. intros H w r w' Hrun. by destruct (H _ _ _ Hrun). Qed.

Lemma keeps_table_bind {A B} (m : M A) (k : A → M B) :
  keeps_table m → (∀ a, keeps_table (k a)) → keeps_table (bind m k).
Proof.
  intros Hm Hk w r w' H. apply bind_inv in H as [(e & H & _)|(a & w1 & H1 & H2)].
  - eauto.
  - rewrite (Hk _ _ _ _ H2). eauto.
Qed.

Lemma restores_cwd_of_keeps_dirs {A} (m : M A) : keeps_dirs m → restores_cwd m.
Proof. intros H w r w' Hrun _. by destruct (H _ _ _ Hrun). Qed.

Lemma restores_cwd_bind {A B} (m : M A) (k : A → M B) :
  restores_cwd m → (∀ a, restores_cwd (k a)) → restores_cwd (bind m k).
Proof.
  intros Hm Hk w r w' H Habs. apply bind_inv in H as [(e & H & _)|(a & w1 & H1 & H2)].
  - eauto.
  - rewrite (Hk _ _ _ _ H2); [eauto|]. by rewrite (Hm _ _ _ H1 Habs).
Qed.

Section DownloadMore.
Variable sys : Platform.
Variable self : Org.

Lemma keeps_table_tar_add_all tar files :
  ∀ members, keeps_table (tar_add_all sys tar members files).
Proof.
  induction files as [|f files IH]; intros members; simpl.
  - apply keeps_table_of_keeps_dirs, keeps_ret.
  - apply keeps_table_bind; [|done]. apply keeps_table_of_keeps_dirs, keeps_tar_add.
Qed.

(** The body of the [try] never touches the table of directories. *)
Lemma keeps_table_download_vapp_try ovf uri tempdir file_name :
  keeps_table (download_vapp_try sys self ovf uri tempdir file_name).
Proof.
  unfold download_vapp_try.
  apply keeps_table_bind; [apply keeps_table_of_keeps_dirs, keeps_write_file|]. intros _.
  apply keeps_table_bind; [apply keeps_table_of_keeps_dirs, keeps_lift|]. intros refs.
  apply keeps_table_bind; [apply keeps_table_of_keeps_dirs, keeps_lift|]. intros fl.
  apply keeps_table_bind; [apply keeps_table_of_keeps_dirs, keeps_download_files|]. intros files.
  apply keeps_table_bind; [intros w r w' H; by inversion H|]. intros tar.
  apply keeps_table_bind; [intros w r w' H; by inversion H|]. intros _.
  apply keeps_table_bind; [apply keeps_table_of_keeps_dirs, keeps_tar_add|]. intros members.
  apply keeps_table_bind; [apply keeps_table_tar_add_all|]. intros members'.
  intros w r w' H. by inversion H.
Qed.

(** Every end of [download_vapp], seen from the directories. *)
Lemma download_vapp_exits item file_name w r w' :
  download_vapp sys self item file_name w = Some (r, w') →
  let key := resolve w (OsPath.join "." (tmp_name sys)) in
  (OsPath.starts_with_slash (cwd w) = true → cwd w' = cwd w)
  ∧ (dirs w' = dirs w
     ∨ dirs w !! key = None ∧ dirs w' = <[key := []]> (dirs w))
  ∧ (∀ ovf lnk,
       get_linked_resource (client self) (trace w) item DOWNLOAD_DEFAULT
         (value (client self) TEXT_XML) = Return ovf →
       find_link (client self) item DOWNLOAD_DEFAULT (value (client self) TEXT_XML)
         = Return lnk →
       dirs w !! key = None →
       dirs w' = <[key := []]> (dirs w)).
Proof.
  intros Hrun key. unfold download_vapp in Hrun.
  apply bind_inv in Hrun as [(e & Hget & ->)|(ovf & w1 & Hget & Hrun)].
  { unfold client_get_linked_resource in Hget. injection Hget as Hget <-.
    split; [done|]. split; [by left|]. intros ovf lnk Hovf. simpl in Hget. congruence. }
  unfold client_get_linked_resource in Hget. injection Hget as Hget <-.
  apply bind_inv in Hrun as [(e & Hl & ->)|(lnk & w2 & Hl & Hrun)].
  { apply lift_inv in Hl as [Hl ->]. split; [done|]. split; [by left|].
    intros ovf' lnk' _ Hlnk. congruence. }
  apply lift_inv in Hl as [Hl ->].
  apply bind_inv in Hrun as [(e & Hcwd & _)|(cwd0 & wc & Hcwd & Hrun)]; [discriminate|].
  unfold os_getcwd in Hcwd. injection Hcwd as <- <-.
  apply bind_inv in Hrun as [(e & Htmp & _)|(t & w3 & Htmp & Hrun)].
  { apply attempt_inv in Htmp as (? & _ & ?). discriminate. }
  apply attempt_inv in Htmp as (t0 & Htmp & [= ->]).
  unfold tempfile_mkdtemp in Htmp.
  change (resolve (log _ w) (OsPath.join "." (tmp_name sys))) with key in Htmp.
  change (dirs (log ?ev w)) with (dirs w) in Htmp.
  destruct (dirs w !! key) eqn:Hfresh; injection Htmp as <- <-.
  { injection Hrun as _ <-. split; [done|]. split; [by left|]. congruence. }
  apply bind_inv in Hrun as [(e & Htry & _)|(r0 & w4 & Htry & Hrun)].
  { apply attempt_inv in Htry as (? & _ & ?). discriminate. }
  apply attempt_inv in Htry as (r1 & Htry & [= ->]).
  pose proof (keeps_table_download_vapp_try _ _ _ _ _ _ _ Htry) as Hd4. simpl in Hd4.
  apply bind_inv in Hrun as [(e & Hcd & _)|([] & w5 & Hcd & Hrun)]; [discriminate|].
  unfold os_chdir in Hcd. injection Hcd as <-.
  assert (Hw' : dirs w' = dirs w4
                ∧ cwd w' = resolve w4 (cwd w)).
  { apply bind_inv in Hrun as [(e & Hstat & _)|(st & w6 & Hstat & Hrun)].
    - unfold os_stat in Hstat. destruct (fs _ !! _); [discriminate|].
      by injection Hstat as _ <-.
    - unfold os_stat in Hstat. destruct (fs _ !! _); [|discriminate].
      injection Hstat as _ <-. destruct r1; by injection Hrun as _ <-. }
  destruct Hw' as [Hd Hc]. rewrite Hd, Hd4.
  split; [|split; [right; done|done]].
  intros Habs. rewrite Hc. unfold resolve, OsPath.join. by rewrite Habs.
Qed.

Lemma restores_cwd_download_vapp item file_name :
  restores_cwd (download_vapp sys self item file_name).
Proof. intros w r w' Hrun. by destruct (download_vapp_exits _ _ _ _ _ Hrun) as [H _]. Qed.

End DownloadMore.

(** X9.  However [download_catalog_item] ends, by a value or by an error,
    in either branch, the working directory is the one it was called in
    (an absolute path). *)
Theorem download_catalog_item_restores_the_working_directory :
  ∀ (sys : Platform) (self : Org) (catalog_name item_name file_name : string)
    (w : world) (r : outcome pyval) (w' : world),
    download_catalog_item sys self catalog_name item_name file_name w = Some (r, w') →
    OsPath.starts_with_slash (cwd w) = true →
    cwd w' = cwd w.
Proof.
  intros sys self cn item_name fn.
  change (restores_cwd (download_catalog_item sys self cn item_name fn)).
  unfold download_catalog_item.
  apply restores_cwd_bind; [apply restores_cwd_of_keeps_dirs, keeps_get_catalog_item|].
  intros item.
  apply restores_cwd_bind; [apply restores_cwd_of_keeps_dirs, keeps_lift|]. intros entity.
  apply restores_cwd_bind; [apply restores_cwd_of_keeps_dirs, keeps_str_add|]. intros href.
  apply restores_cwd_bind; [apply restores_cwd_of_keeps_dirs, keeps_client_post_resource|].
  intros task.
  apply restores_cwd_bind;
    [apply restores_cwd_of_keeps_dirs, keeps_task_monitor_wait_for_success|]. intros _.
  apply restores_cwd_bind; [apply restores_cwd_of_keeps_dirs, keeps_client_get_resource|].
  intros item'.
  destruct (option_string_eqb _ _).
  - apply restores_cwd_of_keeps_dirs, keeps_download_media.
  - destruct (option_string_eqb _ _).
    + apply restores_cwd_download_vapp.
    + apply restores_cwd_of_keeps_dirs, keeps_ret.
Qed.

Lemma download_catalog_item_restores_the_working_directory_witness :
  cwd (logs [EvGet (Some org_href); EvGet (Some catalog_href); EvGet (Some item_href);
             EvPost (template_href +:+ "/action/enableDownload") None None;
             EvWait task_doc 60 1; EvGet (Some template_href);
             EvGetLinked (template_doc two_slots) DOWNLOAD_DEFAULT "text/xml";
             EvDownload (Some "https://vcd/transfer/x1/disk1.vmdk")
               "./tmp8x3k2q/disk1.vmdk" (PyStr "3")]
          (set_dirs (insert "/work/./tmp8x3k2q" [])
             (set_fs (insert "/work/./tmp8x3k2q/disk1.vmdk" (mk_file disk_bytes))
                (set_fs (insert "/work/./tmp8x3k2q/descriptor.ovf" (mk_file ovf_bytes))
                   world_old_output))))
  = cwd world_old_output.
Proof.
  apply (download_catalog_item_restores_the_working_directory one_disk_machine
           (org_of counting_server) "templates" "appliance" "out.ova" world_old_output
           (Raise (Exception "download incomplete for file disk1.vmdk"))).
  - vm_compute. reflexivity.
  - reflexivity.
Defined.

(** X10.  Once the descriptor and its link are obtained and [mkdtemp]
    has made the workspace, the appliance-template branch leaves it in place
    however it ends, by a value or by an error. *)
Theorem download_vapp_never_removes_its_workspace :
  ∀ (sys : Platform) (self : Org) (item : xml) (file_name : string)
    (w : world) (r : outcome pyval) (w' : world) (ovf : xml) (lnk : link),
    let key := resolve w (OsPath.join "." (tmp_name sys)) in
    get_linked_resource (client self) (trace w) item DOWNLOAD_DEFAULT
      (value (client self) TEXT_XML) = Return ovf →
    find_link (client self) item DOWNLOAD_DEFAULT (value (client self) TEXT_XML) = Return lnk →
    dirs w !! key = None →
    download_vapp sys self item file_name w = Some (r, w') →
    dirs w' = <[key := []]> (dirs w).
Proof.
  intros sys self item fn w r w' ovf lnk key Hovf Hlnk Hfresh Hrun.
  destruct (download_vapp_exits _ _ _ _ _ _ _ Hrun) as (_ & _ & H). by eapply H.
Qed.

Lemma download_vapp_never_removes_its_workspace_witness :
  dirs (logs [EvGetLinked (template_doc two_slots) DOWNLOAD_DEFAULT "text/xml";
              EvDownload (Some "https://vcd/transfer/x1/disk1.vmdk")
                "./tmp8x3k2q/disk1.vmdk" (PyStr "3")]
          (set_dirs (insert "/work/./tmp8x3k2q" [])
             (set_fs (insert "/work/./tmp8x3k2q/disk1.vmdk" (mk_file disk_bytes))
                (set_fs (insert "/work/./tmp8x3k2q/descriptor.ovf" (mk_file ovf_bytes))
                   world_empty))))
  = <[resolve world_empty (OsPath.join "." (tmp_name one_disk_machine)) := []]>
      (dirs world_empty).
Proof.
  apply (download_vapp_never_removes_its_workspace one_disk_machine (org_of counting_server)
           (template_doc two_slots) "out.ova" world_empty
           (Raise (FileNotFoundError "out.ova")) _ one_disk
           {| link_name := "descriptor";
              link_href := "https://vcd/transfer/x1/descriptor.ovf" |}).
  - reflexivity.
  - reflexivity.
  - reflexivity.
  - vm_compute. reflexivity.
Defined.

(** X11.  With a client whose downloads return integer byte counts the
    appliance-template branch never returns a value: every run ends in an
    error. *)
Theorem download_vapp_never_completes_with_byte_counts :
  ∀ (sys : Platform) (self : Org) (item : xml) (file_name : string)
    (w : world) (r : outcome pyval) (w' : world),
    returns_counts (client self) →
    download_vapp sys self item file_name w = Some (r, w') →
    ∃ e, r = Raise e.
Proof.
  intros sys self item fn w r w' Hcounts Hrun.
  destruct r as [v|e]; [exfalso|eauto].
  unfold download_vapp in Hrun.
  apply bind_Return_inv in Hrun as (ovf & w1 & _ & Hrun).
  apply bind_Return_inv in Hrun as (lnk & w2 & _ & Hrun).
  apply bind_Return_inv in Hrun as (cwd0 & w3 & _ & Hrun).
  apply bind_Return_inv in Hrun as (t & w4 & _ & Hrun).
  destruct t as [tempdir|e]; [|discriminate].
  apply bind_Return_inv in Hrun as (r0 & w5 & Htry & Hrun).
  apply attempt_inv in Htry as (r1 & Htry & [= ->]).
  apply bind_Return_inv in Hrun as ([] & w6 & _ & Hrun).
  apply bind_Return_inv in Hrun as (st & w7 & _ & Hrun).
  destruct r1 as [u|e]; [|discriminate]. clear Hrun.
  unfold download_vapp_try in Htry.
  apply bind_Return_inv in Htry as ([] & wa & _ & Htry).
  apply bind_Return_inv in Htry as (refs & wb & _ & Htry).
  apply bind_Return_inv in Htry as (fl & wc & Hfl & Htry).
  apply bind_Return_inv in Htry as (files & wd & Hdl & _).
  apply lift_inv in Hfl as [Hfl _]. unfold siblings in Hfl.
  destruct fl as [|f rest]; [by destruct (children_named "File" refs)|].
  destruct (download_files_rejects_counts self _ _ _ _ _ _ _ _ Hcounts Hdl) as [e He].
  discriminate.
Qed.

Lemma download_vapp_never_completes_with_byte_counts_witness :
  ∃ e, Raise (FileNotFoundError "out.ova") = @Raise pyval e.
Proof.
  apply (download_vapp_never_completes_with_byte_counts one_disk_machine
           (org_of counting_server) (template_doc two_slots) "out.ova" world_empty
           (Raise (FileNotFoundError "out.ova"))
           (logs [EvGetLinked (template_doc two_slots) DOWNLOAD_DEFAULT "text/xml";
                  EvDownload (Some "https://vcd/transfer/x1/disk1.vmdk")
                    "./tmp8x3k2q/disk1.vmdk" (PyStr "3")]
              (set_dirs (insert "/work/./tmp8x3k2q" [])
                 (set_fs (insert "/work/./tmp8x3k2q/disk1.vmdk" (mk_file disk_bytes))
                    (set_fs (insert "/work/./tmp8x3k2q/descriptor.ovf" (mk_file ovf_bytes))
                       world_empty))))).
  - exact counting_server_returns_counts.
  - vm_compute. reflexivity.
Defined.



(** ** download_catalog_item: items of another type *)

(** Writes the world of the goal as its events recorded on the world
    they started from. *)
Ltac as_logs :=
  repeat match goal with
         | |- context [log ?ev ?w] => change (log ev w) with (logs [ev] w)
         end;
  rewrite ?logs_logs.

(** X12.  For an item that is neither a medium nor an appliance
    template, [download_catalog_item] downloads nothing and makes no
    directory; when it returns, it returns 0, having enabled the download,
    waited for the task and fetched the item. *)
Theorem download_catalog_item_of_another_type_downloads_nothing :
  ∀ (sys : Platform) (self : Org) (catalog_name item_name file_name : string)
    (w : world) (item : xml) (w1 : world) (entity : xml) (r : outcome pyval) (w' : world),
    get_catalog_item self catalog_name item_name w = Some (Return item, w1) →
    child "Entity" item = Return entity →
    option_string_eqb (get "type" entity) (Some (value (client self) MEDIA)) = false →
    option_string_eqb (get "type" entity) (Some (value (client self) VAPP_TEMPLATE)) = false →
    download_catalog_item sys self catalog_name item_name file_name w = Some (r, w') →
    ∃ evs,
      w' = logs evs w1
      ∧ downloads evs = []
      ∧ (∀ v, r = Return v →
              v = PyInt 0
              ∧ ∃ h task,
                  get "href" entity = Some h
                  ∧ evs = [EvPost (h +:+ "/action/enableDownload") None None;
                           EvWait task 60 1; EvGet (Some h)]).
Proof.
  intros sys self cn item_name fn w item w1 entity r w' Hitem Hentity Hmedia Hvapp Hrun.
  unfold download_catalog_item in Hrun. unfold bind at 1 in Hrun. rewrite Hitem in Hrun.
  unfold bind at 1 in Hrun. unfold lift at 1 in Hrun. rewrite Hentity in Hrun.
  rewrite Hmedia, Hvapp in Hrun.
  apply bind_inv in Hrun as [(e & Hadd & ->)|(href & w2 & Hadd & Hrun)].
  { unfold str_add in Hadd. destruct (get "href" entity); [discriminate|].
    injection Hadd as _ <-. exists []. rewrite logs_nil. split; [done|]. split; [done|].
    discriminate. }
  unfold str_add in Hadd. destruct (get "href" entity) as [h|] eqn:Eh; [|discriminate].
  injection Hadd as <- <-.
  apply bind_inv in Hrun as [(e & Hpost & ->)|(task & w3 & Hpost & Hrun)].
  { unfold client_post_resource in Hpost. injection Hpost as _ <-.
    as_logs. eexists. split; [reflexivity|]. split; [done|]. discriminate. }
  unfold client_post_resource in Hpost. injection Hpost as _ <-.
  apply bind_inv in Hrun as [(e & Hwait & ->)|(t & w4 & Hwait & Hrun)].
  { unfold task_monitor_wait_for_success in Hwait. injection Hwait as _ <-.
    as_logs. eexists. split; [reflexivity|]. split; [done|]. discriminate. }
  unfold task_monitor_wait_for_success in Hwait. injection Hwait as _ <-.
  apply bind_inv in Hrun as [(e & Hget & ->)|(item' & w5 & Hget & Hrun)].
  { unfold client_get_resource in Hget. injection Hget as _ <-.
    as_logs. eexists. split; [reflexivity|]. split; [done|]. discriminate. }
  unfold client_get_resource in Hget. injection Hget as _ <-.
  injection Hrun as <- <-.
  as_logs. eexists. split; [reflexivity|]. split; [done|].
  intros v [= <-]. split; [done|]. eauto.
Qed.

Lemma download_catalog_item_of_another_type_downloads_nothing_witness :
  ∃ evs,
    logs [EvGet (Some org_href); EvGet (Some catalog_href); EvGet (Some item_href);
          EvPost (template_href +:+ "/action/enableDownload") None None;
          EvWait task_doc 60 1; EvGet (Some template_href)] world_empty
      = logs evs (logs [EvGet (Some org_href); EvGet (Some catalog_href);
                        EvGet (Some item_href)] world_empty)
    ∧ downloads evs = []
    ∧ (∀ v, Return (PyInt 0) = Return v →
            v = PyInt 0
            ∧ ∃ h task,
                get "href" (Elem "Entity" [("type", "application/vnd.vmware.vcloud.vApp+xml");
                                           ("href", template_href)] "" []) = Some h
                ∧ evs = [EvPost (h +:+ "/action/enableDownload") None None;
                         EvWait task 60 1; EvGet (Some h)]).
Proof.
  apply (download_catalog_item_of_another_type_downloads_nothing one_disk_machine
           (org_of other_type_server) "templates" "appliance" "out.ova" world_empty
           other_item_doc).
  - vm_compute. reflexivity.
  - reflexivity.
  - reflexivity.
  - reflexivity.
  - vm_compute. reflexivity.
Defined.

(** ** The slot poll, continued *)

Section PollRounds.
Variable self : Org.
Variables catalog_item e : xml.
Hypothesis Hentity : child "Entity" catalog_item = Return e.

(** What the loop returns when round [k] ends it. *)
Lemma poll_slots_ends_at k :
  ∀ fuel w,
    ends_poll (poll_response self w (get "href" e) k) = true →
    (∀ j, (j < k)%nat → ends_poll (poll_response self w (get "href" e) j) = false) →
    (k < fuel)%nat →
    ∃ w',
      poll_slots self fuel catalog_item w
        = Some (match poll_response self w (get "href" e) k with
                | Raise x => Raise x
                | Return entity =>
                    match count_files entity with
                    | Raise x => Raise x
                    | Return _ => Return entity
                    end
                end, w')
      ∧ trace w' = (trace w ++ poll_history (get "href" e) (S k))%list
      ∧ clock w' = (clock w + 5 * (Z.of_nat k + 1))%Z
      ∧ fs w' = fs w ∧ dirs w' = dirs w.
Proof.
  induction k as [|k IH]; intros fuel w Hend Hbefore Hfuel;
    (destruct fuel as [|fuel]; [lia|]);
    rewrite (poll_slots_round self catalog_item e Hentity).
  - unfold ends_poll in Hend.
    assert (Htrace : trace (next_round (get "href" e) w)
                     = (trace w ++ poll_history (get "href" e) 1)%list).
    { unfold next_round, poll_history. simpl. by rewrite <- app_assoc. }
    destruct (poll_response self w (get "href" e) 0) as [entity|x].
    + destruct (count_files entity) as [n|x].
      * rewrite Hend. eexists. split; [reflexivity|]. split; [exact Htrace|]. simpl.
        repeat split; lia.
      * eexists. split; [reflexivity|]. split; [exact Htrace|]. simpl. repeat split; lia.
    + eexists. split; [reflexivity|]. split; [exact Htrace|]. simpl. repeat split; lia.
  - pose proof (Hbefore 0%nat ltac:(lia)) as H0. unfold ends_poll in H0.
    destruct (poll_response self w (get "href" e) 0) as [entity|x]; [|discriminate].
    destruct (count_files entity) as [n|x]; [|discriminate].
    rewrite H0.
    destruct (IH fuel (next_round (get "href" e) w)) as (w' & Hrun & Htr & Hclock & Hfs & Hdirs).
    + by rewrite (poll_response_next self e).
    + intros j Hj. rewrite (poll_response_next self e). apply Hbefore. lia.
    + lia.
    + exists w'. rewrite (poll_response_next self e) in Hrun.
      split; [exact Hrun|]. split; [|split; [|split]].
      * rewrite Htr. unfold next_round, poll_history. simpl. by rewrite <- !app_assoc.
      * rewrite Hclock. simpl. lia.
      * by rewrite Hfs.
      * by rewrite Hdirs.
Qed.
End PollRounds.

(** X18.  When round [k] is the first whose answer ends the poll, the
    loop ends there: it has slept 5 time units and made one request in each
    of the [k + 1] rounds, touched no file, and returns the entity of that
    round, or raises the error of that round. *)
Theorem poll_slots_ends_at_the_first_round_that_settles :
  ∀ (self : Org) (catalog_item e : xml) (k fuel : nat) (w : world),
    child "Entity" catalog_item = Return e →
    ends_poll (poll_response self w (get "href" e) k) = true →
    (∀ j, (j < k)%nat → ends_poll (poll_response self w (get "href" e) j) = false) →
    (k < fuel)%nat →
    ∃ w',
      poll_slots self fuel catalog_item w
        = Some (match poll_response self w (get "href" e) k with
                | Raise x => Raise x
                | Return entity =>
                    match count_files entity with
                    | Raise x => Raise x
                    | Return _ => Return entity
                    end
                end, w')
      ∧ trace w' = (trace w ++ poll_history (get "href" e) (S k))%list
      ∧ clock w' = (clock w + 5 * (Z.of_nat k + 1))%Z
      ∧ fs w' = fs w ∧ dirs w' = dirs w.
Proof. intros. by apply (poll_slots_ends_at self catalog_item e). Qed.

Lemma ready_server_settles_in_round_5 :
  ∀ j, (j < 5)%nat →
       ends_poll (poll_response (org_of ready_server) world_ova (Some template_href) j) = false.
Proof.
  intros j Hj. do 5 (destruct j as [|j]; [reflexivity|]). lia.
Qed.

Lemma poll_slots_ends_at_the_first_round_that_settles_witness :
  ∃ w',
    poll_slots (org_of ready_server) 6 catalog_item_doc world_ova
      = Some (match poll_response (org_of ready_server) world_ova
                      (get "href" (Elem "Entity" [("type", media_types VAPP_TEMPLATE);
                                                  ("href", template_href)] "" [])) 5 with
              | Raise x => Raise x
              | Return entity =>
                  match count_files entity with
                  | Raise x => Raise x
                  | Return _ => Return entity
                  end
              end, w')
    ∧ trace w' = (trace world_ova
                  ++ poll_history (get "href" (Elem "Entity" [("type", media_types VAPP_TEMPLATE);
                                                              ("href", template_href)] "" [])) 6)%list
    ∧ clock w' = (clock world_ova + 5 * (Z.of_nat 5 + 1))%Z
    ∧ fs w' = fs world_ova ∧ dirs w' = dirs world_ova.
Proof.
  apply (poll_slots_ends_at_the_first_round_that_settles (org_of ready_server) catalog_item_doc
           (Elem "Entity" [("type", media_types VAPP_TEMPLATE); ("href", template_href)] "" [])
           5 6 world_ova).
  - reflexivity.
  - reflexivity.
  - exact ready_server_settles_in_round_5.
  - lia.
Defined.

(** ** upload_ovf: members and slots *)

Lemma upload_to_slots_unmatched self fuel tempdir C cb sf targets total w :
  (∀ t, In t targets → option_string_eqb (sf_href sf) (get "name" t) = false) →
  upload_to_slots self fuel tempdir C cb sf targets total w = Some (Return total, w).
Proof.
  induction targets as [|t targets IH]; intros Hnone; [reflexivity|]. simpl.
  rewrite (Hnone t) by (by left). apply IH. intros t' Ht'. apply Hnone. by right.
Qed.

(** X19.  Members of the descriptor for which the server reports no
    slot of the same name are skipped: nothing is sent, no error is raised
    and the total is unchanged. *)
Theorem upload_members_skips_members_without_a_slot :
  ∀ (self : Org) (fuel : nat) (tempdir : string) (C : Z) (callback : bool)
    (entity efiles : xml) (targets : list xml) (files : list source_file)
    (total_bytes : Z) (w : world),
    child "Files" entity = Return efiles →
    siblings "File" efiles = Return targets →
    (∀ sf t, In sf files → In t targets →
             option_string_eqb (sf_href sf) (get "name" t) = false) →
    upload_members self fuel tempdir C callback entity files total_bytes w
      = Some (Return total_bytes, w).
Proof.
  intros self fuel tempdir C cb entity efiles targets files total w Hfiles Htargets.
  induction files as [|sf files IH]; intros Hnone; [reflexivity|]. simpl.
  unfold bind at 1. unfold lift at 1. rewrite Hfiles.
  unfold bind at 1. unfold lift at 1. rewrite Htargets.
  unfold bind at 1. rewrite upload_to_slots_unmatched.
  - apply IH. intros sf' t Hsf Ht. apply Hnone; [by right|done].
  - intros t Ht. apply Hnone; [by left|done].
Qed.

Lemma upload_members_skips_members_without_a_slot_witness :
  upload_members (org_of plain_server) 0 "./tmp8x3k2q" 2 true
    (template_doc two_slots) [source_file_of (file_ref "disk2.vmdk" "file2" "7")] 4 world_ova
  = Some (Return 4%Z, world_ova).
Proof.
  apply (upload_members_skips_members_without_a_slot (org_of plain_server) 0 "./tmp8x3k2q" 2 true
           (template_doc two_slots) (Elem "Files" [] "" two_slots) two_slots).
  - reflexivity.
  - reflexivity.
  - intros sf t [<-|[]] [<-|[<-|[]]]; reflexivity.
Defined.

(** ** Org.__init__: the admin endpoint *)

Lemma replace_from_skip old new x q :
  replace_from old new (x +:+ q) (String.length x) = replace_from old new q 0.
Proof. induction x as [|a x IH]; [reflexivity|exact IH]. Qed.

Lemma replace_from_first new c o p q :
  first_at (String c o) (p +:+ String c o +:+ q) (String.length p) = true →
  replace_from (String c o) new (p +:+ String c o +:+ q) 0
  = p +:+ new +:+ replace_from (String c o) new q 0.
Proof.
  induction p as [|a p IH]; intros Hfirst.
  - change ("" +:+ String c o +:+ q) with (String c (o +:+ q)) in *.
    change (first_at (String c o) (String c (o +:+ q)) (String.length ""))
      with (String.prefix (String c o) (String c (o +:+ q))) in Hfirst.
    change (replace_from (String c o) new (String c (o +:+ q)) 0)
      with (if String.prefix (String c o) (String c (o +:+ q))
            then new +:+ replace_from (String c o) new (o +:+ q) (String.length (String c o) - 1)
            else String c (replace_from (String c o) new (o +:+ q) 0)).
    rewrite Hfirst. change ("" +:+ ?x) with x. f_equal.
    change (String.length (String c o) - 1) with (String.length o - 0).
    rewrite Nat.sub_0_r. apply replace_from_skip.
  - change (String a p +:+ String c o +:+ q) with (String a (p +:+ String c o +:+ q)) in *.
    change (first_at (String c o) (String a (p +:+ String c o +:+ q)) (String.length (String a p)))
      with (negb (String.prefix (String c o) (String a (p +:+ String c o +:+ q)))
            && first_at (String c o) (p +:+ String c o +:+ q) (String.length p)) in Hfirst.
    apply andb_true_iff in Hfirst as [Hp Hrest]. apply negb_true_iff in Hp.
    change (replace_from (String c o) new (String a (p +:+ String c o +:+ q)) 0)
      with (if String.prefix (String c o) (String a (p +:+ String c o +:+ q))
            then new +:+ replace_from (String c o) new (p +:+ String c o +:+ q)
                           (String.length (String c o) - 1)
            else String a (replace_from (String c o) new (p +:+ String c o +:+ q) 0)).
    rewrite Hp. rewrite (IH Hrest). reflexivity.
Qed.

(** X1.  An [Org] built from an href (given, or taken from the resource
    given) in which [/api/org/] occurs first after [p] and not again in what
    follows has that href as [endpoint] and, as [endpoint_admin], the same
    href with [/api/admin/org/] in its place. *)
Theorem org_init_admin_endpoint :
  ∀ (c : Client) (org_href : option string) (is_admin : bool) (org_resource : option xml)
    (p q : string),
    match org_resource with Some r => get "href" r | None => org_href end
      = Some (p +:+ "/api/org/" +:+ q) →
    first_at "/api/org/" (p +:+ "/api/org/" +:+ q) (String.length p) = true →
    occurs "/api/org/" q = false →
    Org_init c org_href is_admin org_resource
      = Return ({| client := c;
                   endpoint := p +:+ "/api/org/" +:+ q;
                   endpoint_admin := p +:+ "/api/admin/org/" +:+ q;
                   is_admin := is_admin |},
                org_resource).
Proof.
  intros c org_href is_admin org_resource p q He Hfirst Habsent.
  unfold Org_init. rewrite He. unfold str_replace.
  rewrite (replace_from_first "/api/admin/org/" "/" "api/org/" p q Hfirst).
  by rewrite replace_from_absent.
Qed.

Lemma org_init_admin_endpoint_witness :
  Org_init plain_server (Some ("https://vcd" +:+ "/api/org/" +:+ "o1")) false None
  = Return ({| client := plain_server;
               endpoint := "https://vcd" +:+ "/api/org/" +:+ "o1";
               endpoint_admin := "https://vcd" +:+ "/api/admin/org/" +:+ "o1";
               is_admin := false |},
            None).
Proof.
  apply (org_init_admin_endpoint plain_server (Some ("https://vcd" +:+ "/api/org/" +:+ "o1"))
           false None "https://vcd" "o1").
  - reflexivity.
  - reflexivity.
  - reflexivity.
Defined.


(** ** upload_ovf: the bytes counted *)

Lemma member_ready_logs w tempdir fuel sf evs :
  member_ready w tempdir fuel sf → member_ready (logs evs w) tempdir fuel sf.
Proof. intros (h & f & H). exists h, f. exact H. Qed.

Lemma upload_to_slots_counts self fuel tempdir C cb sf :
  accepts_fragments (client self) → (0 < C)%Z →
  ∀ targets total w,
    member_ready w tempdir fuel sf →
    Forall (λ t, ∃ l, child "Link" t = Return l) targets →
    ∃ evs,
      upload_to_slots self fuel tempdir C cb sf targets total w
        = Some (Return (total + member_size w tempdir sf * slots_named sf targets)%Z,
                logs evs w).
Proof.
  intros Hacc HC. induction targets as [|t targets IH]; intros total w Hready Hlinks.
  - exists []. rewrite logs_nil. unfold slots_named. simpl. rewrite Z.mul_0_r, Z.add_0_r.
    reflexivity.
  - inversion Hlinks as [|? ? [l Hl] Hlinks']; subst.
    cbn [upload_to_slots]. unfold slots_named. cbn [List.filter].
    destruct (option_string_eqb (sf_href sf) (get "name" t)) eqn:Ematch.
    + destruct Hready as (h & f & Hh & Hf & Hlen & Hfuel).
      unfold bind at 1. unfold os_path_join. rewrite Hh. unfold ret at 1.
      unfold bind at 1. unfold lift at 1. rewrite Hl.
      destruct (upload_file_whole self (OsPath.join tempdir h) (get "href" l) C cb w f fuel
                  Hacc HC Hf Hlen Hfuel) as (evs1 & Hrun & _).
      unfold bind at 1. rewrite Hrun.
      destruct (IH (total + st_size f)%Z (logs evs1 w)) as (evs2 & Hrest).
      { apply member_ready_logs. exists h, f. done. }
      { done. }
      exists (evs1 ++ evs2)%list. rewrite Hrest, logs_logs. f_equal. f_equal. f_equal.
      unfold member_size, slots_named. rewrite Hh.
      change (fs (logs evs1 w) !! resolve (logs evs1 w) (OsPath.join tempdir h))
        with (fs w !! resolve w (OsPath.join tempdir h)).
      rewrite Hf. cbn [length]. lia.
    + destruct (IH total w Hready Hlinks') as (evs & Hrest).
      exists evs. exact Hrest.
Qed.

Lemma member_size_logs w tempdir sf evs :
  member_size (logs evs w) tempdir sf = member_size w tempdir sf.
Proof. reflexivity. Qed.

(** X20.  When every member is in the workspace with the bytes its
    size announces and every slot has a link, the loop over the members
    adds to the total the size of each member once for each slot that bears
    its name. *)
Theorem upload_members_counts_each_member_once_per_slot :
  ∀ (self : Org) (fuel : nat) (tempdir : string) (C : Z) (callback : bool)
    (entity efiles : xml) (targets : list xml) (files : list source_file)
    (total_bytes : Z) (w : world),
    accepts_fragments (client self) →
    (0 < C)%Z →
    child "Files" entity = Return efiles →
    siblings "File" efiles = Return targets →
    Forall (λ t, ∃ l, child "Link" t = Return l) targets →
    Forall (member_ready w tempdir fuel) files →
    ∃ evs,
      upload_members self fuel tempdir C callback entity files total_bytes w
        = Some (Return (total_bytes
                        + foldr (λ sf acc, member_size w tempdir sf * slots_named sf targets + acc)
                                0 files)%Z,
                logs evs w).
Proof.
  intros self fuel tempdir C cb entity efiles targets files total w Hacc HC Hfiles Htargets
    Hlinks. revert total w.
  induction files as [|sf files IH]; intros total w Hready.
  - exists []. rewrite logs_nil. simpl. by rewrite Z.add_0_r.
  - inversion Hready as [|? ? Hsf Hrest]; subst.
    cbn [upload_members].
    unfold bind at 1. unfold lift at 1. rewrite Hfiles.
    unfold bind at 1. unfold lift at 1. rewrite Htargets.
    destruct (upload_to_slots_counts self fuel tempdir C cb sf Hacc HC targets total w Hsf Hlinks)
      as (evs1 & Hrun).
    unfold bind at 1. rewrite Hrun.
    destruct (IH (total + member_size w tempdir sf * slots_named sf targets)%Z (logs evs1 w))
      as (evs2 & Hrun2).
    { eapply Forall_impl; [exact Hrest|]. intros a. apply member_ready_logs. }
    change (member_size (logs evs1 w)) with (member_size w) in Hrun2.
    exists (evs1 ++ evs2)%list. rewrite Hrun2, logs_logs. f_equal. f_equal. f_equal.
    cbn [foldr]. lia.
Qed.

Lemma upload_members_counts_each_member_once_per_slot_witness :
  ∃ evs,
    upload_members (org_of plain_server) 5 "./tmp8x3k2q" 2 true (template_doc two_slots)
      [source_file_of (file_ref "disk1.vmdk" "file1" "3")] 4 world_extracted
    = Some (Return (4 + foldr (λ sf acc, member_size world_extracted "./tmp8x3k2q" sf
                                         * slots_named sf two_slots + acc)
                              0 [source_file_of (file_ref "disk1.vmdk" "file1" "3")])%Z,
            logs evs world_extracted).
Proof.
  apply (upload_members_counts_each_member_once_per_slot (org_of plain_server) 5 "./tmp8x3k2q"
           2 true (template_doc two_slots) (Elem "Files" [] "" two_slots) two_slots).
  - exact plain_server_accepts.
  - lia.
  - reflexivity.
  - reflexivity.
  - repeat constructor; eexists; reflexivity.
  - repeat constructor. exists "disk1.vmdk", (mk_file disk_bytes).
    split; [reflexivity|]. split; [reflexivity|]. split; [reflexivity|]. simpl. lia.
Defined.

(** ** delete_catalog, delete_catalog_item, list_catalogs *)

(** X23.  [delete_catalog] of a name that no catalog link of the
    organisation carries raises [Exception "Catalog not found."] after
    the one request for the organisation: whatever the delete request
    would do, it is not made. *)
Theorem delete_catalog_of_an_unknown_name_deletes_nothing :
  ∀ (self : Org) (client_delete_resource : option string → M xml)
    (name : string) (w : world) (org : xml),
    get_resource (client self) (trace w) (Some (endpoint self)) = Return org →
    (∀ l, In l (get_links (client self) org DOWN (value (client self) CATALOG)) →
          link_name l ≠ name) →
    delete_catalog self client_delete_resource name w
      = Some (Raise (Exception "Catalog not found."), log (EvGet (Some (endpoint self))) w).
Proof.
  intros self del name w org Horg Hnone.
  unfold delete_catalog, bind, client_get_resource. rewrite Horg.
  rewrite find_absent; [reflexivity|].
  intros l Hl. apply String.eqb_neq. intros ->. by apply (Hnone l).
Qed.

Lemma delete_catalog_of_an_unknown_name_deletes_nothing_witness :
  delete_catalog (org_of plain_server) (λ _, ret task_doc) "no such catalog" world_empty
    = Some (Raise (Exception "Catalog not found."),
            log (EvGet (Some (endpoint (org_of plain_server)))) world_empty).
Proof.
  apply (delete_catalog_of_an_unknown_name_deletes_nothing (org_of plain_server)
           (λ _, ret task_doc) "no such catalog" world_empty org_doc).
  - reflexivity.
  - intros l [<-|[]]. discriminate.
Defined.

(** X24.  Whenever [delete_catalog] ends, it has either raised
    "Catalog not found." without deleting, or made exactly one delete
    request: for the first link of that name, at its href with
    "/api/catalog/" replaced by "/api/admin/catalog/", and the outcome
    of the method is the outcome of that request. *)
Theorem delete_catalog_deletes_the_first_link_of_the_name :
  ∀ (self : Org) (client_delete_resource : option string → M xml)
    (name : string) (w : world) (r : outcome xml) (w' : world) (org : xml),
    get_resource (client self) (trace w) (Some (endpoint self)) = Return org →
    delete_catalog self client_delete_resource name w = Some (r, w') →
    (r = Raise (Exception "Catalog not found.") ∧ w' = log (EvGet (Some (endpoint self))) w)
    ∨ ∃ before l after,
        get_links (client self) org DOWN (value (client self) CATALOG)
          = (before ++ l :: after)%list
        ∧ (∀ l', In l' before → link_name l' ≠ name)
        ∧ link_name l = name
        ∧ client_delete_resource
            (Some (str_replace "/api/catalog/" "/api/admin/catalog/" (link_href l)))
            (log (EvGet (Some (endpoint self))) w) = Some (r, w').
Proof.
  intros self del name w r w' org Horg Hrun.
  unfold delete_catalog, bind, client_get_resource in Hrun. rewrite Horg in Hrun.
  destruct (List.find _ _) as [l|] eqn:Efind.
  - right. apply find_some in Efind as Hl. destruct Hl as [Hin Heq].
    apply String.eqb_eq in Heq.
    assert (Hsplit : ∃ before after,
               get_links (client self) org DOWN (value (client self) CATALOG)
                 = (before ++ l :: after)%list
               ∧ ∀ l', In l' before → link_name l' ≠ name).
    { clear Hrun Hin. revert Efind.
      generalize (get_links (client self) org DOWN (value (client self) CATALOG)).
      intros links. induction links as [|a links IH]; intros Efind; [discriminate|].
      simpl in Efind. destruct (String.eqb name (link_name a)) eqn:Ea.
      - injection Efind as ->. exists [], links. split; [reflexivity|]. intros l' [].
      - destruct (IH Efind) as (before & after & -> & Hbefore).
        exists (a :: before), after. split; [reflexivity|].
        intros l' [<-|Hl']; [|by apply Hbefore].
        apply String.eqb_neq in Ea. congruence. }
    destruct Hsplit as (before & after & Hlinks & Hbefore).
    exists before, l, after. repeat split; [exact Hlinks | exact Hbefore | by symmetry | exact Hrun].
  - left. by injection Hrun as <- <-.
Qed.

Lemma delete_catalog_deletes_the_first_link_of_the_name_witness :
  (Return task_doc = Raise (Exception "Catalog not found.")
   ∧ log (EvPrint "DELETE") (log (EvGet (Some org_href)) world_empty)
     = log (EvGet (Some (endpoint (org_of twin_server)))) world_empty)
  ∨ ∃ before l after,
      get_links (client (org_of twin_server)) org_doc DOWN
        (value (client (org_of twin_server)) CATALOG) = (before ++ l :: after)%list
      ∧ (∀ l', In l' before → link_name l' ≠ "templates")
      ∧ link_name l = "templates"
      ∧ (λ _ w, Some (Return task_doc, log (EvPrint "DELETE") w))
          (Some (str_replace "/api/catalog/" "/api/admin/catalog/" (link_href l)))
          (log (EvGet (Some (endpoint (org_of twin_server)))) world_empty)
        = Some (Return task_doc, log (EvPrint "DELETE") (log (EvGet (Some org_href)) world_empty)).
Proof.
  apply (delete_catalog_deletes_the_first_link_of_the_name (org_of twin_server)
           (λ _ w, Some (Return task_doc, log (EvPrint "DELETE") w)) "templates" world_empty
           (Return task_doc) (log (EvPrint "DELETE") (log (EvGet (Some org_href)) world_empty))
           org_doc).
  - reflexivity.
  - vm_compute. reflexivity.
Defined.

(** X25.  [delete_catalog_item] of an item name that the catalog does
    not list raises [Exception "Item not found."] and makes no delete
    request: the history is the one the catalog lookup left. *)
Theorem delete_catalog_item_of_an_unknown_item_deletes_nothing :
  ∀ (self : Org) (client_delete_resource : option string → M xml)
    (name item_name : string) (w : world) (catalog : xml) (w1 : world) (items : xml),
    get_catalog self name w = Some (Return catalog, w1) →
    child "CatalogItems" catalog = Return items →
    ¬ In (Some item_name) (map (get "name") (getchildren items)) →
    delete_catalog_item self client_delete_resource name item_name w
      = Some (Raise (Exception "Item not found."), w1).
Proof.
  intros self del name item_name w catalog w1 items Hcat Hitems Hnot.
  unfold delete_catalog_item. unfold bind at 1. rewrite Hcat.
  unfold bind at 1. unfold lift. rewrite Hitems.
  by rewrite find_item_unlisted.
Qed.

Lemma delete_catalog_item_of_an_unknown_item_deletes_nothing_witness :
  delete_catalog_item (org_of plain_server) (λ _, ret task_doc) "templates" "no such item"
    world_empty
  = Some (Raise (Exception "Item not found."),
          logs [EvGet (Some org_href); EvGet (Some catalog_href)] world_empty).
Proof.
  apply (delete_catalog_item_of_an_unknown_item_deletes_nothing (org_of plain_server)
           (λ _, ret task_doc) "templates" "no such item" world_empty catalog_doc
           (logs [EvGet (Some org_href); EvGet (Some catalog_href)] world_empty)
           (Elem "CatalogItems" [] ""
              [Elem "CatalogItem" [("name", "appliance"); ("href", item_href)] "" []])).
  - vm_compute. reflexivity.
  - reflexivity.
  - intros [H|[]]. discriminate.
Defined.

(** X26.  [list_catalogs] never returns an empty list: when the query
    (for "adminCatalog" for an administrator, "catalog" otherwise)
    yields no record the result is the string "No catalogs found.";
    otherwise it is one dict per record, in order, without the keys
    "owner" and "org". *)
Theorem list_catalogs_never_returns_an_empty_list :
  ∀ (self : Org) (client_typed_query : string → M (list xml)) (dict : Type)
    (to_dict : xml → string → list string → dict)
    (w : world) (res : catalogs_result dict) (w' : world),
    list_catalogs self client_typed_query dict to_dict w = Some (Return res, w') →
    let resource_type := if is_admin self then "adminCatalog" else "catalog" in
    ∃ records,
      client_typed_query resource_type w = Some (Return records, w')
      ∧ match res with
        | NoCatalogs message => records = [] ∧ message = "No catalogs found."
        | Catalogs entries =>
            records ≠ []
            ∧ entries = map (λ r, to_dict r resource_type ["owner"; "org"]) records
        end.
Proof.
  intros self query dict to_dict w res w' Hrun resource_type.
  unfold list_catalogs in Hrun. fold resource_type in Hrun.
  apply bind_Return_inv in Hrun as (records & w1 & Hq & Hrun).
  exists records. destruct records as [|r records]; simpl in Hrun; injection Hrun as <- <-.
  - done.
  - split; [done|]. split; [done|reflexivity].
Qed.

Lemma list_catalogs_never_returns_an_empty_list_witness :
  let resource_type := if is_admin (org_of plain_server) then "adminCatalog" else "catalog" in
  ∃ records,
    (λ _ : string, @ret (list xml) []) resource_type world_empty
      = Some (Return records, world_empty)
    ∧ match @NoCatalogs string "No catalogs found." with
      | NoCatalogs message => records = [] ∧ message = "No catalogs found."
      | Catalogs entries =>
          records ≠ []
          ∧ entries = map (λ r, (λ r _ _, tag_of r) r resource_type ["owner"; "org"]) records
      end.
Proof.
  apply (list_catalogs_never_returns_an_empty_list (org_of plain_server)
           (λ _, ret []) string (λ r _ _, tag_of r) world_empty
           (NoCatalogs "No catalogs found.") world_empty).
  reflexivity.
Defined.
